(** * bskatar: the procedural avatar engine and its persistence contract

    A shallow embedding of the two front ends of the repository:
    - the standalone avatar editor (generators [createHead] ... [createBlush],
      the assembler [buildAvatar], [saveAvatarToBluesky] and
      [loadAvatarFromBluesky]);
    - the explorable world ([Bskyplace.buildPlayerAvatar] and its loader).

    JavaScript numbers are IEEE-754 doubles and are modelled by Rocq's
    primitive floats, so every literal and every arithmetic step of the
    source is evaluated as the engine evaluates it.  A persisted record is a
    JavaScript object read by key and is modelled as a finite map from
    property names to values. *)

From Stdlib Require Import ZArith Ascii Floats.
From stdpp Require Import gmap strings list.

Set Warnings "-inexact-float,-register-all".

(** ** JavaScript values *)

(** The values a field of a persisted record (or, TypeScript types being
    erased at run time, a field of the live configuration) can hold.
    Records of the store carry integers, never fractions, hence [VNum] over
    [Z]; [VRef] stands for any array or nested object (always truthy). *)
Inductive value : Type :=
| VUndefined
| VNull
| VBool (b : bool)
| VNum (n : Z)
| VStr (s : string)
| VRef (id : nat).

#[global] Instance value_eq_dec : EqDecision value.
Proof. solve_decision. Defined.

(** ToBoolean: what [a || b] and [if (a)] test. *)
Definition truthy (v : value) : bool :=
  match v with
  | VUndefined | VNull => false
  | VBool b => b
  | VNum n => negb (n =? 0)%Z
  | VStr s => negb (String.eqb s "")
  | VRef _ => true
  end.

(** [a || b] *)
Definition js_or (a b : value) : value := if truthy a then a else b.

(** [a ?? b] *)
Definition js_nullish (a b : value) : value :=
  match a with
  | VUndefined | VNull => b
  | _ => a
  end.

(** [v === 'literal']: strict equality against a string literal, the test
    behind every [case] label and behind [style === 'none']. *)
Definition strict_eq_str (v : value) (literal : string) : bool :=
  match v with
  | VStr s => String.eqb s literal
  | _ => false
  end.

Notation "v === s" := (strict_eq_str v s) (at level 70, no associativity).

(** [hay.includes(needle)] *)
Fixpoint includes (needle hay : string) : bool :=
  String.prefix needle hay ||
  match hay with
  | EmptyString => false
  | String _ rest => includes needle rest
  end.

(** A JavaScript object used as a record: own properties by name.  Reading
    a property that is not there gives [undefined]. *)
Definition get (record : gmap string value) (key : string) : value :=
  default VUndefined (record !! key).

(** ** The configuration *)

Record AvatarConfig : Type := mkConfig {
  headShape : value;
  headColor : value;
  hairStyle : value;
  hairColor : value;
  eyeStyle : value;
  eyeColor : value;
  eyebrowStyle : value;
  noseStyle : value;
  mouthStyle : value;
  hasBlush : value
}.

#[global] Instance AvatarConfig_eq_dec : EqDecision AvatarConfig.
Proof. solve_decision. Defined.

(** The initial value of [currentConfig] (and of [playerAvatar]). *)
Definition defaultConfig : AvatarConfig := {|
  headShape := VStr "round";
  headColor := VStr "#ffccaa";
  hairStyle := VStr "short";
  hairColor := VStr "#4a3728";
  eyeStyle := VStr "dots";
  eyeColor := VStr "#333333";
  eyebrowStyle := VStr "normal";
  noseStyle := VStr "small";
  mouthStyle := VStr "smile";
  hasBlush := VBool true
|}.

(** *** The style taxonomy (the unions of the [AvatarConfig] interface) *)

Definition headShapes : list string := ["round"; "oval"; "square"].
Definition hairStyles : list string := ["none"; "short"; "spiky"; "bob"; "ponytail"].
Definition eyeStyles : list string := ["dots"; "wide"; "sleepy"; "sparkle"].
Definition eyebrowStyles : list string := ["none"; "normal"; "angry"; "worried"; "thick"].
Definition noseStyles : list string := ["none"; "small"; "round"; "pointed"].
Definition mouthStyles : list string := ["smile"; "neutral"; "open"; "cat"; "surprised"].

(** [v] is one of the strings of [domain]. *)
Definition one_of (domain : list string) (v : value) : bool :=
  existsb (strict_eq_str v) domain.

Definition is_hex_digit (c : Ascii.ascii) : bool :=
  let n := Ascii.nat_of_ascii c in
  ((48 <=? n) && (n <=? 57)) || ((65 <=? n) && (n <=? 70)) || ((97 <=? n) && (n <=? 102)).

Fixpoint all_hex (s : string) : bool :=
  match s with
  | EmptyString => true
  | String c rest => is_hex_digit c && all_hex rest
  end.

(** The digits of a color string: what follows the leading [#], if any. *)
Definition strip_hash (s : string) : string :=
  match s with
  | String c rest => if Ascii.eqb c "#"%char then rest else s
  | EmptyString => s
  end.

(** A hex color string: at least one hex digit, with or without a leading [#]. *)
Definition hex_color (v : value) : bool :=
  match v with
  | VStr s => negb (String.eqb (strip_hash s) "") && all_hex (strip_hash s)
  | _ => false
  end.

Definition is_boolean (v : value) : bool :=
  match v with VBool _ => true | _ => false end.

(** Every field holds a value of its domain (the table of the data model). *)
Definition in_domain (c : AvatarConfig) : bool :=
  one_of headShapes (headShape c) && hex_color (headColor c) &&
  one_of hairStyles (hairStyle c) && hex_color (hairColor c) &&
  one_of eyeStyles (eyeStyle c) && hex_color (eyeColor c) &&
  one_of eyebrowStyles (eyebrowStyle c) &&
  one_of noseStyles (noseStyle c) &&
  one_of mouthStyles (mouthStyle c) &&
  is_boolean (hasBlush c).

(** ** The scene-graph library, as far as the avatar uses it

    three.js is an outside dependency.  What the source builds with it is
    kept as data: which constructor was called with which arguments, which
    in-place transforms were applied, and where each object was placed.
    The vertex buffer itself is tracked for boxes, the one geometry whose
    vertices the source reads and rewrites. *)

Record Vector3 : Type := vec3 { vx : float; vy : float; vz : float }.

Definition Math_PI : float := 0x1.921fb54442d18p+1%float.

(** A segment count as a JavaScript number. *)
Definition js_number (n : nat) : float :=
  PrimFloat.of_uint63 (Uint63.of_Z (Z.of_nat n)).

(** [Math.fround]: vertex buffers are [Float32Array]s, so a coordinate is
    rounded to single precision when stored and widened back when read. *)
Definition fround (x : float) : float :=
  match Prim2SF x with
  | S754_finite s m e => SF2Prim (binary_normalize 24 128 (cond_Zopp s (Zpos m)) e s)
  | _ => x
  end.

Definition fround3 (v : Vector3) : Vector3 :=
  vec3 (fround (vx v)) (fround (vy v)) (fround (vz v)).

Inductive Axis : Type := AxisX | AxisY | AxisZ.

Definition setAxis (a : Axis) (c : float) (v : Vector3) : Vector3 :=
  match a with
  | AxisX => vec3 c (vy v) (vz v)
  | AxisY => vec3 (vx v) c (vz v)
  | AxisZ => vec3 (vx v) (vy v) c
  end.

Section BoxVertices.
Local Open Scope float_scope.

(** [buildPlane] of [BoxGeometry]: one face, a grid of
    [(gridX+1) * (gridY+1)] vertices, row by row. *)
Definition buildPlane (u v w : Axis) (udir vdir width height depth : float)
    (gridX gridY : nat) : list Vector3 :=
  let segmentWidth := width / js_number gridX in
  let segmentHeight := height / js_number gridY in
  let widthHalf := width / 2 in
  let heightHalf := height / 2 in
  let depthHalf := depth / 2 in
  flat_map (fun iy =>
    let y := js_number iy * segmentHeight - heightHalf in
    map (fun ix =>
      let x := js_number ix * segmentWidth - widthHalf in
      setAxis w depthHalf (setAxis v (y * vdir) (setAxis u (x * udir) (vec3 0 0 0))))
      (seq 0 (S gridX)))
    (seq 0 (S gridY)).

(** The six faces in the order the library emits them: +x, -x, +y, -y,
    +z, -z; the buffer attribute holds them in single precision. *)
Definition boxVertices (width height depth : float)
    (widthSegments heightSegments depthSegments : nat) : list Vector3 :=
  map fround3
    (buildPlane AxisZ AxisY AxisX (-1) (-1) depth height width depthSegments heightSegments ++
     buildPlane AxisZ AxisY AxisX 1 (-1) depth height (- width) depthSegments heightSegments ++
     buildPlane AxisX AxisZ AxisY 1 1 width depth height widthSegments depthSegments ++
     buildPlane AxisX AxisZ AxisY 1 (-1) width depth (- height) widthSegments depthSegments ++
     buildPlane AxisX AxisY AxisZ 1 (-1) width height depth widthSegments heightSegments ++
     buildPlane AxisX AxisY AxisZ (-1) (-1) width height (- depth) widthSegments heightSegments).
End BoxVertices.

(** The geometry constructors the avatar uses, with their arguments. *)
Inductive Primitive : Type :=
| IcosahedronGeometry (radius : float) (detail : nat)
| BoxGeometry (width height depth : float) (widthSegments heightSegments depthSegments : nat)
| SphereGeometry (radius : float) (widthSegments heightSegments : nat)
    (phiStart phiLength thetaStart thetaLength : float)
| ConeGeometry (radius height : float) (radialSegments : nat)
| CapsuleGeometry (radius length : float) (capSegments radialSegments : nat)
| TorusGeometry (radius tube : float) (radialSegments tubularSegments : nat) (arc : float)
| CircleGeometry (radius : float) (segments : nat).

(** In-place transforms of a geometry ([geometry.scale(..)], [rotateX], [rotateZ]). *)
Inductive GeometryOp : Type :=
| OpScale (x y z : float)
| OpRotateX (angle : float)
| OpRotateZ (angle : float).

Record BufferGeometry : Type := mkGeometry {
  primitive : Primitive;
  (** [attributes.position], when tracked *)
  position_attribute : option (list Vector3);
  (** transforms applied after construction, oldest first *)
  applied : list GeometryOp
}.

Definition geometry_of (p : Primitive) : BufferGeometry :=
  {| primitive := p;
     position_attribute :=
       match p with
       | BoxGeometry w h d ws hs ds => Some (boxVertices w h d ws hs ds)
       | _ => None
       end;
     applied := [] |}.

(** Optional trailing arguments take the library's defaults. *)
Definition SphereGeometry3 (radius : float) (widthSegments heightSegments : nat) : Primitive :=
  SphereGeometry radius widthSegments heightSegments 0 (Math_PI * 2) 0 Math_PI.
Definition BoxGeometry3 (width height depth : float) : Primitive :=
  BoxGeometry width height depth 1 1 1.
Definition TorusGeometry4 (radius tube : float) (radialSegments tubularSegments : nat) : Primitive :=
  TorusGeometry radius tube radialSegments tubularSegments (Math_PI * 2).

Definition geometry_scale (x y z : float) (g : BufferGeometry) : BufferGeometry :=
  {| primitive := primitive g; position_attribute := position_attribute g;
     applied := applied g ++ [OpScale x y z] |}.
Definition geometry_rotateX (angle : float) (g : BufferGeometry) : BufferGeometry :=
  {| primitive := primitive g; position_attribute := position_attribute g;
     applied := applied g ++ [OpRotateX angle] |}.
Definition geometry_rotateZ (angle : float) (g : BufferGeometry) : BufferGeometry :=
  {| primitive := primitive g; position_attribute := position_attribute g;
     applied := applied g ++ [OpRotateZ angle] |}.
Definition with_positions (ps : list Vector3) (g : BufferGeometry) : BufferGeometry :=
  {| primitive := primitive g; position_attribute := Some ps; applied := applied g |}.

(** What a [THREE.Color] was made from. *)
Inductive Color : Type :=
| ColorOf (v : value)
| ColorHex (hex : Z)
| ColorTimes (c : Color) (s : float).

Record MeshLambertMaterial : Type := mkMaterial {
  color : Color;
  flatShading : bool;
  transparent : bool;
  opacity : float
}.

Inductive Payload : Type :=
| IsGroup
| IsMesh (geometry : BufferGeometry) (material : option MeshLambertMaterial).

(** An [Object3D]: a group or a mesh, its local transform, and its children
    in order.  A mesh built without a material ([None]) gets the library's
    default one.  Objects are compared by structure: the identity of an
    object (its [id] and [uuid]) is not part of the model. *)
Inductive Object3D : Type :=
| Node (what : Payload) (position rotation scale : Vector3) (castShadow : bool)
    (children : list Object3D).

Definition children_of (o : Object3D) : list Object3D :=
  match o with Node _ _ _ _ _ cs => cs end.

Definition new_Group : Object3D :=
  Node IsGroup (vec3 0 0 0) (vec3 0 0 0) (vec3 1 1 1) false [].

Definition new_Mesh (g : BufferGeometry) (m : option MeshLambertMaterial) : Object3D :=
  Node (IsMesh g m) (vec3 0 0 0) (vec3 0 0 0) (vec3 1 1 1) false [].

(** [parent.add(a, b, ...)]: each object is appended to [parent.children]. *)
Definition add (parent : Object3D) (objects : list Object3D) : Object3D :=
  match parent with
  | Node w p r s sh cs => Node w p r s sh (cs ++ objects)
  end.

Definition position_set (x y z : float) (o : Object3D) : Object3D :=
  match o with Node w _ r s sh cs => Node w (vec3 x y z) r s sh cs end.
Definition set_position_y (y : float) (o : Object3D) : Object3D :=
  match o with Node w p r s sh cs => Node w (vec3 (vx p) y (vz p)) r s sh cs end.
Definition set_rotation_x (a : float) (o : Object3D) : Object3D :=
  match o with Node w p r s sh cs => Node w p (vec3 a (vy r) (vz r)) s sh cs end.
Definition set_rotation_y (a : float) (o : Object3D) : Object3D :=
  match o with Node w p r s sh cs => Node w p (vec3 (vx r) a (vz r)) s sh cs end.
Definition set_rotation_z (a : float) (o : Object3D) : Object3D :=
  match o with Node w p r s sh cs => Node w p (vec3 (vx r) (vy r) a) s sh cs end.
Definition set_scale_y (k : float) (o : Object3D) : Object3D :=
  match o with Node w p r s sh cs => Node w p r (vec3 (vx s) k (vz s)) sh cs end.
Definition scale_setScalar (k : float) (o : Object3D) : Object3D :=
  match o with Node w p r s sh cs => Node w p r (vec3 k k k) sh cs end.
Definition set_castShadow (b : bool) (o : Object3D) : Object3D :=
  match o with Node w p r s _ cs => Node w p r s b cs end.

(** [while (g.children.length > 0) g.remove(g.children[0])]: each turn
    takes the first child out, so the loop is a recursion on the list. *)
Fixpoint remove_children (children : list Object3D) : list Object3D :=
  match children with
  | [] => []
  | _ :: rest => remove_children rest
  end.

Definition clear (g : Object3D) : Object3D :=
  match g with
  | Node w p r s sh cs => Node w p r s sh (remove_children cs)
  end.

(** ** The editor: feature generators *)

Record MaterialOptions : Type := mkOptions {
  opt_transparent : option bool;
  opt_opacity : option float
}.

(** [createMaterial(color, options?)].  A parameter handed over as
    [undefined] leaves the material's default in place (not transparent,
    opacity 1). *)
Definition createMaterial (c : Color) (options : option MaterialOptions) : MeshLambertMaterial :=
  {| color := c;
     flatShading := true;
     transparent := default false (options ≫= opt_transparent);
     opacity := default 1%float (options ≫= opt_opacity) |}.

Section Generators.
Local Open Scope float_scope.

(** The body of the [for] loop of the square head, at one vertex: move it
    by [factor] of the way to the point of the unit sphere in its own
    direction; [setXYZ] stores single precision. *)
Definition inflate (factor : float) (p : Vector3) : Vector3 :=
  let x := vx p in
  let y := vy p in
  let z := vz p in
  let length := PrimFloat.sqrt (x*x + y*y + z*z) in
  fround3 (vec3 (x + (x/length - x) * factor)
                (y + (y/length - y) * factor)
                (z + (z/length - z) * factor)).

(** One turn of [for (let i = 0; i < positions.count; i++)]: read vertex
    [i], write vertex [i]. *)
Definition inflate_at (positions : list Vector3) (i : nat) : list Vector3 :=
  match positions !! i with
  | Some p => <[i := inflate 0.15 p]> positions
  | None => positions
  end.

Definition inflate_all (positions : list Vector3) : list Vector3 :=
  foldl inflate_at positions (seq 0 (length positions)).

Definition createHead (shape color : value) : Object3D :=
  let geometry :=
    if shape === "round" then
      geometry_of (IcosahedronGeometry 1 1)
    else if shape === "oval" then
      geometry_scale 0.85 1.1 0.9 (geometry_of (IcosahedronGeometry 1 1))
    else if shape === "square" then
      let geometry := geometry_of (BoxGeometry 1.6 1.8 1.5 2 2 2) in
      match position_attribute geometry with
      | Some positions => with_positions (inflate_all positions) geometry
      | None => geometry
      end
    else
      geometry_of (IcosahedronGeometry 1 1) in
  new_Mesh geometry (Some (createMaterial (ColorOf color) None)).

Definition createHair (style color : value) : Object3D :=
  let hairGroup := new_Group in
  if style === "none" then hairGroup else
  let hairMaterial := Some (createMaterial (ColorOf color) None) in
  if style === "short" then
    let capGeom := geometry_of (SphereGeometry 1.05 8 6 0 (Math_PI * 2) 0 (Math_PI * 0.45)) in
    let cap := new_Mesh capGeom hairMaterial in
    let cap := set_position_y 0.15 cap in
    let hairGroup := add hairGroup [cap] in
    let bangGeom := geometry_of (BoxGeometry 0.8 0.15 0.3 2 1 1) in
    let bangs := new_Mesh bangGeom hairMaterial in
    let bangs := position_set 0 0.75 0.7 bangs in
    let bangs := set_rotation_x 0.3 bangs in
    add hairGroup [bangs]
  else if style === "spiky" then
    let spikeGeom := geometry_of (ConeGeometry 0.15 0.5 4) in
    let spikePositions :=
      [ (0, 1.1, 0, 0, 0);
        (0.3, 1.0, 0.1, 0.2, -0.3);
        (-0.3, 1.0, 0.1, 0.2, 0.3);
        (0.15, 1.05, -0.2, -0.2, -0.15);
        (-0.15, 1.05, -0.2, -0.2, 0.15);
        (0, 0.95, 0.35, 0.5, 0);
        (0.4, 0.85, 0.2, 0.3, -0.5);
        (-0.4, 0.85, 0.2, 0.3, 0.5) ] in
    foldl (fun hairGroup pos =>
             let '(x, y, z, rotX, rotZ) := pos in
             let spike := new_Mesh spikeGeom hairMaterial in
             let spike := position_set x y z spike in
             let spike := set_rotation_x rotX spike in
             let spike := set_rotation_z rotZ spike in
             add hairGroup [spike])
          hairGroup spikePositions
  else if style === "bob" then
    let bobGeom := geometry_of (SphereGeometry3 1.1 8 6) in
    let bobGeom := geometry_scale 1 0.9 0.95 bobGeom in
    let bob := new_Mesh bobGeom hairMaterial in
    let bob := set_position_y 0.2 bob in
    (* the clip box is built but never added to the group *)
    let clipGeom := geometry_of (BoxGeometry3 3 1.5 3) in
    let clipMesh := new_Mesh clipGeom None in
    let clipMesh := set_position_y (-1.1) clipMesh in
    let hairGroup := add hairGroup [bob] in
    let sideGeom := geometry_of (CapsuleGeometry 0.25 0.4 4 8) in
    let leftSide := new_Mesh sideGeom hairMaterial in
    let leftSide := position_set (-0.85) (-0.1) 0.2 leftSide in
    let leftSide := set_rotation_z 0.15 leftSide in
    let rightSide := new_Mesh sideGeom hairMaterial in
    let rightSide := position_set 0.85 (-0.1) 0.2 rightSide in
    let rightSide := set_rotation_z (-0.15) rightSide in
    let hairGroup := add hairGroup [leftSide; rightSide] in
    let bangGeom := geometry_of (BoxGeometry 0.9 0.2 0.25 2 1 1) in
    let bangs := new_Mesh bangGeom hairMaterial in
    let bangs := position_set 0 0.7 0.75 bangs in
    let bangs := set_rotation_x 0.4 bangs in
    add hairGroup [bangs]
  else if style === "ponytail" then
    let capGeom := geometry_of (SphereGeometry 1.05 8 6 0 (Math_PI * 2) 0 (Math_PI * 0.5)) in
    let cap := new_Mesh capGeom hairMaterial in
    let cap := set_position_y 0.1 cap in
    let hairGroup := add hairGroup [cap] in
    let tailGeom := geometry_of (CapsuleGeometry 0.2 0.7 4 8) in
    let tail := new_Mesh tailGeom hairMaterial in
    let tail := position_set 0 0.3 (-0.9) tail in
    let tail := set_rotation_x 0.6 tail in
    let hairGroup := add hairGroup [tail] in
    let tieGeom := geometry_of (TorusGeometry4 0.15 0.05 6 8) in
    let tieMaterial := Some (createMaterial (ColorOf (VStr "#ff6b6b")) None) in
    let tie := new_Mesh tieGeom tieMaterial in
    let tie := position_set 0 0.6 (-0.85) tie in
    let tie := set_rotation_x (Math_PI / 2 + 0.3) tie in
    let hairGroup := add hairGroup [tie] in
    let bangGeom := geometry_of (BoxGeometry 0.7 0.15 0.25 2 1 1) in
    let bangs := new_Mesh bangGeom hairMaterial in
    let bangs := position_set 0 0.75 0.7 bangs in
    let bangs := set_rotation_x 0.3 bangs in
    add hairGroup [bangs]
  else
    hairGroup.
End Generators.

Section MoreGenerators.
Local Open Scope float_scope.

Definition createEyebrows (style color : value) : Object3D :=
  let browGroup := new_Group in
  if style === "none" then browGroup else
  let browMaterial := Some (createMaterial (ColorOf color) None) in
  let eyeSpacing := 0.35 in
  let browY := 0.4 in
  let browZ := 0.82 in
  if style === "normal" then
    let browGeom := geometry_of (BoxGeometry 0.2 0.04 0.05 1 1 1) in
    let leftBrow := new_Mesh browGeom browMaterial in
    let leftBrow := position_set (- eyeSpacing) browY browZ leftBrow in
    let rightBrow := new_Mesh browGeom browMaterial in
    let rightBrow := position_set eyeSpacing browY browZ rightBrow in
    add browGroup [leftBrow; rightBrow]
  else if style === "angry" then
    let browGeom := geometry_of (BoxGeometry 0.22 0.05 0.05 1 1 1) in
    let leftBrow := new_Mesh browGeom browMaterial in
    let leftBrow := position_set (- eyeSpacing) browY browZ leftBrow in
    let leftBrow := set_rotation_z 0.4 leftBrow in
    let rightBrow := new_Mesh browGeom browMaterial in
    let rightBrow := position_set eyeSpacing browY browZ rightBrow in
    let rightBrow := set_rotation_z (-0.4) rightBrow in
    add browGroup [leftBrow; rightBrow]
  else if style === "worried" then
    let browGeom := geometry_of (BoxGeometry 0.22 0.05 0.05 1 1 1) in
    let leftBrow := new_Mesh browGeom browMaterial in
    let leftBrow := position_set (- eyeSpacing) browY browZ leftBrow in
    let leftBrow := set_rotation_z (-0.35) leftBrow in
    let rightBrow := new_Mesh browGeom browMaterial in
    let rightBrow := position_set eyeSpacing browY browZ rightBrow in
    let rightBrow := set_rotation_z 0.35 rightBrow in
    add browGroup [leftBrow; rightBrow]
  else if style === "thick" then
    let browGeom := geometry_of (BoxGeometry 0.25 0.08 0.06 1 1 1) in
    let leftBrow := new_Mesh browGeom browMaterial in
    let leftBrow := position_set (- eyeSpacing) browY browZ leftBrow in
    let rightBrow := new_Mesh browGeom browMaterial in
    let rightBrow := position_set eyeSpacing browY browZ rightBrow in
    add browGroup [leftBrow; rightBrow]
  else
    browGroup.

Definition createNose (style headColor : value) : Object3D :=
  let noseGroup := new_Group in
  if style === "none" then noseGroup else
  let noseColor := ColorTimes (ColorOf headColor) 0.9 in
  let noseMaterial := Some (createMaterial noseColor None) in
  let noseY := -0.05 in
  let noseZ := 0.95 in
  if style === "small" then
    let noseGeom := geometry_of (SphereGeometry3 0.06 6 4) in
    let nose := new_Mesh noseGeom noseMaterial in
    let nose := position_set 0 noseY noseZ nose in
    add noseGroup [nose]
  else if style === "round" then
    let noseGeom := geometry_of (SphereGeometry3 0.1 6 4) in
    let noseGeom := geometry_scale 1 0.8 0.7 noseGeom in
    let nose := new_Mesh noseGeom noseMaterial in
    let nose := position_set 0 noseY noseZ nose in
    add noseGroup [nose]
  else if style === "pointed" then
    let noseGeom := geometry_of (ConeGeometry 0.06 0.15 4) in
    let noseGeom := geometry_rotateX (- Math_PI / 2) noseGeom in
    let nose := new_Mesh noseGeom noseMaterial in
    let nose := position_set 0 noseY (noseZ + 0.05) nose in
    add noseGroup [nose]
  else
    noseGroup.

Definition createEyes (style color : value) : Object3D :=
  let eyeGroup := new_Group in
  let eyeMaterial := Some (createMaterial (ColorOf color) None) in
  let whiteMaterial := Some (createMaterial (ColorHex 0xffffff) None) in
  let eyeSpacing := 0.35 in
  let eyeY := 0.15 in
  let eyeZ := 0.85 in
  if style === "dots" then
    let dotGeom := geometry_of (SphereGeometry3 0.08 8 6) in
    let leftDot := new_Mesh dotGeom eyeMaterial in
    let leftDot := position_set (- eyeSpacing) eyeY eyeZ leftDot in
    let rightDot := new_Mesh dotGeom eyeMaterial in
    let rightDot := position_set eyeSpacing eyeY eyeZ rightDot in
    add eyeGroup [leftDot; rightDot]
  else if style === "wide" then
    let wideWhiteGeom := geometry_of (SphereGeometry3 0.15 8 6) in
    let widePupilGeom := geometry_of (SphereGeometry3 0.08 8 6) in
    let leftWhite := new_Mesh wideWhiteGeom whiteMaterial in
    let leftWhite := position_set (- eyeSpacing) eyeY (eyeZ - 0.05) leftWhite in
    let leftPupil := new_Mesh widePupilGeom eyeMaterial in
    let leftPupil := position_set (- eyeSpacing) eyeY (eyeZ + 0.08) leftPupil in
    let rightWhite := new_Mesh wideWhiteGeom whiteMaterial in
    let rightWhite := position_set eyeSpacing eyeY (eyeZ - 0.05) rightWhite in
    let rightPupil := new_Mesh widePupilGeom eyeMaterial in
    let rightPupil := position_set eyeSpacing eyeY (eyeZ + 0.08) rightPupil in
    add eyeGroup [leftWhite; leftPupil; rightWhite; rightPupil]
  else if style === "sleepy" then
    let sleepyGeom := geometry_of (CapsuleGeometry 0.04 0.12 4 8) in
    let sleepyGeom := geometry_rotateZ (Math_PI / 2) sleepyGeom in
    let leftSleepy := new_Mesh sleepyGeom eyeMaterial in
    let leftSleepy := position_set (- eyeSpacing) eyeY eyeZ leftSleepy in
    let leftSleepy := set_scale_y 0.5 leftSleepy in
    let rightSleepy := new_Mesh sleepyGeom eyeMaterial in
    let rightSleepy := position_set eyeSpacing eyeY eyeZ rightSleepy in
    let rightSleepy := set_scale_y 0.5 rightSleepy in
    add eyeGroup [leftSleepy; rightSleepy]
  else if style === "sparkle" then
    let whiteGeom := geometry_of (SphereGeometry3 0.16 8 6) in
    let pupilGeom := geometry_of (SphereGeometry3 0.1 8 6) in
    let shineGeom := geometry_of (SphereGeometry3 0.04 6 4) in
    let shineMaterial := Some (createMaterial (ColorHex 0xffffff) None) in
    let leftWhite := new_Mesh whiteGeom whiteMaterial in
    let leftWhite := position_set (- eyeSpacing) eyeY (eyeZ - 0.05) leftWhite in
    let leftPupil := new_Mesh pupilGeom eyeMaterial in
    let leftPupil := position_set (- eyeSpacing) eyeY (eyeZ + 0.06) leftPupil in
    let leftShine := new_Mesh shineGeom shineMaterial in
    let leftShine :=
      position_set (- eyeSpacing + 0.05) (eyeY + 0.05) (eyeZ + 0.12) leftShine in
    let rightWhite := new_Mesh whiteGeom whiteMaterial in
    let rightWhite := position_set eyeSpacing eyeY (eyeZ - 0.05) rightWhite in
    let rightPupil := new_Mesh pupilGeom eyeMaterial in
    let rightPupil := position_set eyeSpacing eyeY (eyeZ + 0.06) rightPupil in
    let rightShine := new_Mesh shineGeom shineMaterial in
    let rightShine :=
      position_set (eyeSpacing + 0.05) (eyeY + 0.05) (eyeZ + 0.12) rightShine in
    add eyeGroup [leftWhite; leftPupil; leftShine; rightWhite; rightPupil; rightShine]
  else
    eyeGroup.

Definition createMouth (style : value) : Object3D :=
  let mouthGroup := new_Group in
  let mouthMaterial := Some (createMaterial (ColorHex 0x333333) None) in
  let tongueMaterial := Some (createMaterial (ColorHex 0xff6b6b) None) in
  let mouthY := -0.25 in
  let mouthZ := 0.9 in
  if style === "smile" then
    let smileGeom := geometry_of (TorusGeometry 0.15 0.025 8 12 Math_PI) in
    let smileGeom := geometry_rotateX Math_PI smileGeom in
    let smileGeom := geometry_rotateZ Math_PI smileGeom in
    let smile := new_Mesh smileGeom mouthMaterial in
    let smile := position_set 0 mouthY mouthZ smile in
    add mouthGroup [smile]
  else if style === "neutral" then
    let lineGeom := geometry_of (CapsuleGeometry 0.02 0.2 4 8) in
    let lineGeom := geometry_rotateZ (Math_PI / 2) lineGeom in
    let line := new_Mesh lineGeom mouthMaterial in
    let line := position_set 0 mouthY mouthZ line in
    add mouthGroup [line]
  else if style === "open" then
    let openGeom := geometry_of (SphereGeometry3 0.12 8 6) in
    let openGeom := geometry_scale 1.3 0.8 0.5 openGeom in
    let openMouth := new_Mesh openGeom mouthMaterial in
    let openMouth := position_set 0 mouthY mouthZ openMouth in
    let tongueGeom := geometry_of (SphereGeometry3 0.06 6 4) in
    let tongueGeom := geometry_scale 1 0.6 0.5 tongueGeom in
    let tongue := new_Mesh tongueGeom tongueMaterial in
    let tongue := position_set 0 (mouthY - 0.05) (mouthZ + 0.02) tongue in
    add mouthGroup [openMouth; tongue]
  else if style === "cat" then
    let leftGeom := geometry_of (TorusGeometry 0.08 0.02 6 8 Math_PI) in
    let leftGeom := geometry_rotateX Math_PI leftGeom in
    let leftGeom := geometry_rotateZ (Math_PI * 0.75) leftGeom in
    let left := new_Mesh leftGeom mouthMaterial in
    let left := position_set (-0.06) (mouthY - 0.02) mouthZ left in
    let rightGeom := geometry_of (TorusGeometry 0.08 0.02 6 8 Math_PI) in
    let rightGeom := geometry_rotateX Math_PI rightGeom in
    let rightGeom := geometry_rotateZ (Math_PI * 0.25) rightGeom in
    let right := new_Mesh rightGeom mouthMaterial in
    let right := position_set 0.06 (mouthY - 0.02) mouthZ right in
    add mouthGroup [left; right]
  else if style === "surprised" then
    let oGeom := geometry_of (TorusGeometry4 0.1 0.03 8 12) in
    let o := new_Mesh oGeom mouthMaterial in
    let o := position_set 0 mouthY mouthZ o in
    add mouthGroup [o]
  else
    mouthGroup.

Definition createBlush : Object3D :=
  let blushGroup := new_Group in
  let blushMaterial :=
    Some (createMaterial (ColorHex 0xffaaaa)
            (Some {| opt_transparent := Some true; opt_opacity := Some 0.6 |})) in
  let blushGeom := geometry_of (CircleGeometry 0.1 6) in
  let leftBlush := new_Mesh blushGeom blushMaterial in
  let leftBlush := position_set (-0.55) (-0.05) 0.75 leftBlush in
  let leftBlush := set_rotation_y (-0.4) leftBlush in
  let rightBlush := new_Mesh blushGeom blushMaterial in
  let rightBlush := position_set 0.55 (-0.05) 0.75 rightBlush in
  let rightBlush := set_rotation_y 0.4 rightBlush in
  add blushGroup [leftBlush; rightBlush].
End MoreGenerators.

(** ** The editor: the assembler *)

(** [buildAvatar(config)], acting on the scene's [avatarGroup]. *)
Definition buildAvatar (config : AvatarConfig) (avatarGroup : Object3D) : Object3D :=
  let avatarGroup := clear avatarGroup in
  let head := createHead (headShape config) (headColor config) in
  let avatarGroup := add avatarGroup [head] in
  let hair := createHair (hairStyle config) (hairColor config) in
  let avatarGroup := add avatarGroup [hair] in
  let nose := createNose (noseStyle config) (headColor config) in
  let avatarGroup := add avatarGroup [nose] in
  let eyes := createEyes (eyeStyle config) (eyeColor config) in
  let avatarGroup := add avatarGroup [eyes] in
  let eyebrows := createEyebrows (eyebrowStyle config) (hairColor config) in
  let avatarGroup := add avatarGroup [eyebrows] in
  let mouth := createMouth (mouthStyle config) in
  let avatarGroup := add avatarGroup [mouth] in
  if truthy (hasBlush config) then
    let blush := createBlush in
    add avatarGroup [blush]
  else
    avatarGroup.

(** ** The editor: configuration codec *)

Definition AVATAR_COLLECTION : string := "xyz.bskatar.avatar".
Definition AVATAR_RKEY : string := "self".

(** [...currentConfig] inside an object literal: the ten own properties of
    the configuration are copied onto the object under construction. *)
Definition spread (c : AvatarConfig) (o : gmap string value) : gmap string value :=
  <["hasBlush" := hasBlush c]>
  (<["mouthStyle" := mouthStyle c]>
  (<["noseStyle" := noseStyle c]>
  (<["eyebrowStyle" := eyebrowStyle c]>
  (<["eyeColor" := eyeColor c]>
  (<["eyeStyle" := eyeStyle c]>
  (<["hairColor" := hairColor c]>
  (<["hairStyle" := hairStyle c]>
  (<["headColor" := headColor c]>
  (<["headShape" := headShape c]> o))))))))).

(** The record literal of [saveAvatarToBluesky]:
    [{ $type: AVATAR_COLLECTION, ...currentConfig, createdAt: new Date().toISOString() }]. *)
Definition toRecord (createdAt : string) (c : AvatarConfig) : gmap string value :=
  <["createdAt" := VStr createdAt]> (spread c (<["$type" := VStr AVATAR_COLLECTION]> ∅)).

(** The object literal of [loadAvatarFromBluesky] ("Apply loaded config"):
    nine fields filled through [||], [hasBlush] through [??]. *)
Definition fromRecord (record : gmap string value) : AvatarConfig := {|
  headShape := js_or (get record "headShape") (VStr "round");
  headColor := js_or (get record "headColor") (VStr "#ffccaa");
  hairStyle := js_or (get record "hairStyle") (VStr "short");
  hairColor := js_or (get record "hairColor") (VStr "#4a3728");
  eyeStyle := js_or (get record "eyeStyle") (VStr "dots");
  eyeColor := js_or (get record "eyeColor") (VStr "#333333");
  eyebrowStyle := js_or (get record "eyebrowStyle") (VStr "normal");
  noseStyle := js_or (get record "noseStyle") (VStr "small");
  mouthStyle := js_or (get record "mouthStyle") (VStr "smile");
  hasBlush := js_nullish (get record "hasBlush") (VBool true)
|}.

(** ** The editor: persistence gateway *)

(** A thrown value as the handlers read it: [err.message] and [err.status]. *)
Record JsError : Type := mkError {
  message : option string;
  status : option Z
}.

(** [response.data.value]: an object, or any other value. *)
Inductive Fetched : Type :=
| FetchedObject (record : gmap string value)
| FetchedOther (v : value).

(** The record store behind [agent.com.atproto.repo], seen from the page:
    what each request answers.  [None] from a write means it resolved. *)
Record Agent : Type := mkAgent {
  session_did : option string;
  getRecord : string -> string -> string -> JsError + Fetched;
  putRecord : string -> string -> string -> gmap string value -> option JsError;
  createRecord : string -> string -> string -> gmap string value -> option JsError;
  (** [new Date().toISOString()] when the n-th request is being built *)
  clock : nat -> string;
  (** the message of the engine's TypeError for a property read on
      [undefined] or [null] *)
  typeErrorMessage : string
}.

Inductive Request : Type :=
| GetRecord (repo collection rkey : string)
| PutRecord (repo collection rkey : string) (record : gmap string value)
| CreateRecord (repo collection rkey : string) (record : gmap string value).

Inductive ConsoleEntry : Type :=
| ConsoleLog (text : string)
| ConsoleError (text : string).

(** The page's state: the session flag, the live configuration, the avatar
    hierarchy on screen, and what the page has emitted so far (requests
    sent, notifications shown, console lines), oldest first. *)
Record Page : Type := mkPage {
  isLoggedIn : bool;
  currentConfig : AvatarConfig;
  avatarGroup : Object3D;
  sent : list Request;
  notifications : list string;
  console : list ConsoleEntry
}.

Definition set_config (c : AvatarConfig) (p : Page) : Page :=
  mkPage (isLoggedIn p) c (avatarGroup p) (sent p) (notifications p) (console p).
Definition set_avatarGroup (g : Object3D) (p : Page) : Page :=
  mkPage (isLoggedIn p) (currentConfig p) g (sent p) (notifications p) (console p).
Definition send (r : Request) (p : Page) : Page :=
  mkPage (isLoggedIn p) (currentConfig p) (avatarGroup p) (sent p ++ [r]) (notifications p) (console p).
Definition showNotification (text : string) (p : Page) : Page :=
  mkPage (isLoggedIn p) (currentConfig p) (avatarGroup p) (sent p) (notifications p ++ [text]) (console p).
Definition console_write (e : ConsoleEntry) (p : Page) : Page :=
  mkPage (isLoggedIn p) (currentConfig p) (avatarGroup p) (sent p) (notifications p) (console p ++ [e]).

(** [{ success, error? }] *)
Record Result : Type := mkResult {
  success : bool;
  error : option string
}.

(** A [try] body: it runs on the page and either completes or throws; what
    it did to the page before throwing stays done. *)
Definition Try (A : Type) : Type := Page -> Page * (JsError + A).

Definition ret {A} (a : A) : Try A := fun p => (p, inr a).
Definition throw {A} (e : JsError) : Try A := fun p => (p, inl e).
Definition bind {A B} (m : Try A) (k : A -> Try B) : Try B :=
  fun p =>
    match m p with
    | (p', inr a) => k a p'
    | (p', inl e) => (p', inl e)
    end.
Definition effect (f : Page -> Page) : Try unit := fun p => (f p, inr tt).
Definition read {A} (f : Page -> A) : Try A := fun p => (p, inr (f p)).
Definition catch {A} (m : Try A) (handler : JsError -> Try A) : Try A :=
  fun p =>
    match m p with
    | (p', inr a) => (p', inr a)
    | (p', inl e) => handler e p'
    end.

#[global] Instance Try_ret : MRet Try := @ret.
#[global] Instance Try_bind : MBind Try := fun A B k m => bind m k.

(** [new Error(text)] *)
Definition Error (text : string) : JsError := {| message := Some text; status := None |}.

(** [err.message || fallback] *)
Definition message_or (fallback : string) (err : JsError) : string :=
  match message err with
  | Some m => if String.eqb m "" then fallback else m
  | None => fallback
  end.

(** [agent.session?.did], then [if (!repo) throw new Error('No session')] *)
Definition session_repo (agent : Agent) : Try string :=
  match session_did agent with
  | Some did => if String.eqb did "" then throw (Error "No session") else ret did
  | None => throw (Error "No session")
  end.

Definition await_write (answer : option JsError) : Try unit :=
  match answer with
  | None => ret tt
  | Some err => throw err
  end.

(** The record both writes of [saveAvatarToBluesky] build, at the moment
    the request is put together. *)
Definition payload (agent : Agent) : Try (gmap string value) :=
  config ← read currentConfig;
  n ← read (fun p => length (sent p));
  ret (toRecord (clock agent n) config).

(** The outer [try] block of [saveAvatarToBluesky]; the inner [try] is the
    [putRecord], its [catch] (which binds no error) the [createRecord]. *)
Definition save_try (agent : Agent) : Try Result :=
  repo ← session_repo agent;
  catch
    (record ← payload agent;
     effect (send (PutRecord repo AVATAR_COLLECTION AVATAR_RKEY record)) ;;
     await_write (putRecord agent repo AVATAR_COLLECTION AVATAR_RKEY record))
    (fun _ =>
     record ← payload agent;
     effect (send (CreateRecord repo AVATAR_COLLECTION AVATAR_RKEY record)) ;;
     await_write (createRecord agent repo AVATAR_COLLECTION AVATAR_RKEY record)) ;;
  effect (showNotification "Avatar saved to Bluesky!") ;;
  ret {| success := true; error := None |}.

Definition saveAvatarToBluesky (agent : Agent) (page : Page) : Page * Result :=
  if negb (isLoggedIn page) then
    (page, {| success := false; error := Some "Not logged in" |})
  else
    match save_try agent page with
    | (page', inr result) => (page', result)
    | (page', inl err) =>
        (console_write (ConsoleError "Save error:") page',
         {| success := false; error := Some (message_or "Save failed" err) |})
    end.

(** [const record = response.data.value as any] followed by the object
    literal: reading a property of [undefined] or [null] throws, reading
    one of any other non-object gives [undefined]. *)
Definition decode (agent : Agent) (fetched : Fetched) : Try AvatarConfig :=
  match fetched with
  | FetchedObject record => ret (fromRecord record)
  | FetchedOther VUndefined | FetchedOther VNull =>
      throw {| message := Some (typeErrorMessage agent); status := None |}
  | FetchedOther _ => ret (fromRecord ∅)
  end.

(** [err.message?.includes('not found') || err.status === 400] *)
Definition no_record_yet (err : JsError) : bool :=
  match message err with
  | Some m => includes "not found" m
  | None => false
  end
  || bool_decide (status err = Some 400%Z).

(** The [try] block of [loadAvatarFromBluesky].  [updateConfigDisplay] and
    [updateUIFromConfig] only repaint the controls from [currentConfig] and
    are left out.  Each [await] is a single step: nothing else runs on the
    page between a request and its answer. *)
Definition load_try (agent : Agent) : Try Result :=
  repo ← session_repo agent;
  effect (send (GetRecord repo AVATAR_COLLECTION AVATAR_RKEY)) ;;
  response ← (match getRecord agent repo AVATAR_COLLECTION AVATAR_RKEY with
              | inr fetched => ret fetched
              | inl err => throw err
              end);
  config ← decode agent response;
  effect (set_config config) ;;
  group ← read avatarGroup;
  effect (set_avatarGroup (buildAvatar config group)) ;;
  effect (showNotification "Avatar loaded from Bluesky!") ;;
  ret {| success := true; error := None |}.

Definition loadAvatarFromBluesky (agent : Agent) (page : Page) : Page * Result :=
  if negb (isLoggedIn page) then
    (page, {| success := false; error := Some "Not logged in" |})
  else
    match load_try agent page with
    | (page', inr result) => (page', result)
    | (page', inl err) =>
        if no_record_yet err then
          (console_write (ConsoleLog "No existing avatar found") page',
           {| success := false; error := Some "No avatar saved yet" |})
        else
          (console_write (ConsoleError "Load error:") page',
           {| success := false; error := Some (message_or "Load failed" err) |})
    end.

(** ['Error: ' + result.error] *)
Definition error_text (result : Result) : string :=
  "Error: " +:+ default "undefined" (error result).

(** The click handler of the "Load from Bluesky" button. *)
Definition onLoadClick (agent : Agent) (page : Page) : Page :=
  let '(page', result) := loadAvatarFromBluesky agent page in
  if negb (success result) && negb (bool_decide (error result = Some "No avatar saved yet")) then
    showNotification (error_text result) page'
  else
    page'.

(** The click handler of the "Save to Bluesky" button. *)
Definition onSaveClick (agent : Agent) (page : Page) : Page :=
  let '(page', result) := saveAvatarToBluesky agent page in
  if negb (success result) then showNotification (error_text result) page' else page'.

(** ** The world front end (bskyplace) *)

Module Bskyplace.
Local Open Scope float_scope.

(** This front end's own [createMaterial(color)]: no options. *)
Definition createMaterial (c : Color) : MeshLambertMaterial :=
  {| color := c; flatShading := true; transparent := false; opacity := 1 |}.

(** [buildPlayerAvatar(config)], acting on the scene's [player] group. *)
Definition buildPlayerAvatar (config : AvatarConfig) (player : Object3D) : Object3D :=
  let player := clear player in
  let avatarGroup := new_Group in
  let avatarGroup := set_position_y 1.2 avatarGroup in
  let avatarGroup := scale_setScalar 0.6 avatarGroup in
  (* Head *)
  let headGeom :=
    if headShape config === "oval" then
      geometry_scale 0.85 1.1 0.9 (geometry_of (IcosahedronGeometry 1 1))
    else if headShape config === "square" then
      geometry_of (BoxGeometry 1.6 1.8 1.5 2 2 2)
    else
      geometry_of (IcosahedronGeometry 1 1) in
  let head := new_Mesh headGeom (Some (createMaterial (ColorOf (headColor config)))) in
  let head := set_castShadow true head in
  let avatarGroup := add avatarGroup [head] in
  (* Simple body *)
  let bodyGeom := geometry_of (CapsuleGeometry 0.4 0.8 4 8) in
  let body := new_Mesh bodyGeom (Some (createMaterial (ColorOf (headColor config)))) in
  let body := set_position_y (-1.4) body in
  let body := set_castShadow true body in
  let avatarGroup := add avatarGroup [body] in
  (* Hair (simplified) *)
  let avatarGroup :=
    if negb (hairStyle config === "none") then
      let hairMat := Some (createMaterial (ColorOf (hairColor config))) in
      if hairStyle config === "spiky" then
        let spikeGeom := geometry_of (ConeGeometry 0.15 0.5 4) in
        let positions := [ (0, 1.1, 0); (0.3, 1.0, 0.1); (-0.3, 1.0, 0.1) ] in
        foldl (fun avatarGroup pos =>
                 let '(x, y, z) := pos in
                 let spike := new_Mesh spikeGeom hairMat in
                 let spike := position_set x y z spike in
                 let spike := set_castShadow true spike in
                 add avatarGroup [spike])
              avatarGroup positions
      else
        let hairGeom :=
          geometry_of (SphereGeometry 1.05 8 6 0 (Math_PI * 2) 0 (Math_PI * 0.45)) in
        let hair := new_Mesh hairGeom hairMat in
        let hair := set_position_y 0.15 hair in
        let hair := set_castShadow true hair in
        add avatarGroup [hair]
    else avatarGroup in
  (* Eyes (simple dots) *)
  let eyeMat := Some (createMaterial (ColorOf (eyeColor config))) in
  let eyeGeom := geometry_of (SphereGeometry3 0.08 8 6) in
  let leftEye := new_Mesh eyeGeom eyeMat in
  let leftEye := position_set (-0.3) 0.15 0.85 leftEye in
  let rightEye := new_Mesh eyeGeom eyeMat in
  let rightEye := position_set 0.3 0.15 0.85 rightEye in
  let avatarGroup := add avatarGroup [leftEye; rightEye] in
  (* Blush *)
  let avatarGroup :=
    if truthy (hasBlush config) then
      let blushMat :=
        Some {| color := ColorHex 0xffaaaa; flatShading := false;
                transparent := true; opacity := 0.6 |} in
      let blushGeom := geometry_of (CircleGeometry 0.1 6) in
      let leftBlush := new_Mesh blushGeom blushMat in
      let leftBlush := position_set (-0.5) (-0.05) 0.75 leftBlush in
      let leftBlush := set_rotation_y (-0.4) leftBlush in
      let rightBlush := new_Mesh blushGeom blushMat in
      let rightBlush := position_set 0.5 (-0.05) 0.75 rightBlush in
      let rightBlush := set_rotation_y 0.4 rightBlush in
      add avatarGroup [leftBlush; rightBlush]
    else avatarGroup in
  add player [avatarGroup].

(** The object literal of this front end's [loadAvatarFromBluesky]. *)
Definition fromRecord (record : gmap string value) : AvatarConfig := {|
  headShape := js_or (get record "headShape") (VStr "round");
  headColor := js_or (get record "headColor") (VStr "#ffccaa");
  hairStyle := js_or (get record "hairStyle") (VStr "short");
  hairColor := js_or (get record "hairColor") (VStr "#4a3728");
  eyeStyle := js_or (get record "eyeStyle") (VStr "dots");
  eyeColor := js_or (get record "eyeColor") (VStr "#333333");
  eyebrowStyle := js_or (get record "eyebrowStyle") (VStr "normal");
  noseStyle := js_or (get record "noseStyle") (VStr "small");
  mouthStyle := js_or (get record "mouthStyle") (VStr "smile");
  hasBlush := js_nullish (get record "hasBlush") (VBool true)
|}.
End Bskyplace.

(** ** Vocabulary of the properties *)

(** The children a call of [buildAvatar] leaves under the avatar root. *)
Definition parts (config : AvatarConfig) : list Object3D :=
  [ createHead (headShape config) (headColor config);
    createHair (hairStyle config) (hairColor config);
    createNose (noseStyle config) (headColor config);
    createEyes (eyeStyle config) (eyeColor config);
    createEyebrows (eyebrowStyle config) (hairColor config);
    createMouth (mouthStyle config) ] ++
  (if truthy (hasBlush config) then [createBlush] else []).

Definition with_children (children : list Object3D) (g : Object3D) : Object3D :=
  match g with Node w p r s sh _ => Node w p r s sh children end.

Definition bald : AvatarConfig :=
  mkConfig (VStr "round") (VStr "#ffccaa") (VStr "none") (VStr "#4a3728")
           (VStr "dots") (VStr "#333333") (VStr "normal") (VStr "small")
           (VStr "smile") (VBool true).

Section SquareHead.
Local Open Scope float_scope.

(** Distance from the origin. *)
Definition distance (p : Vector3) : float :=
  PrimFloat.sqrt (vx p * vx p + vy p * vy p + vz p * vz p).

(** How far a vertex is moved. *)
Definition displacement (before after : Vector3) : float :=
  distance (vec3 (vx after - vx before) (vy after - vy before) (vz after - vz before)).

(** The vertices of the base box of the square head. *)
Definition headBox : list Vector3 := boxVertices 1.6 1.8 1.5 2 2 2.

(** The position buffer of a mesh, when tracked. *)
Definition mesh_positions (o : Object3D) : option (list Vector3) :=
  match o with
  | Node (IsMesh g _) _ _ _ _ _ => position_attribute g
  | Node IsGroup _ _ _ _ _ => None
  end.

(** How many coordinates of a vertex are not zero: 3 at a corner of the
    box, 2 at the middle of an edge, 1 at the centre of a face. *)
Definition nonzero (x : float) : nat := if PrimFloat.eqb x 0 then 0%nat else 1%nat.
Definition rank (p : Vector3) : nat := (nonzero (vx p) + nonzero (vy p) + nonzero (vz p))%nat.
Definition is_corner (p : Vector3) : bool := Nat.eqb (rank p) 3.
Definition is_face_centre (p : Vector3) : bool := Nat.eqb (rank p) 1.

(** The inflation brings the vertex closer to the origin. *)
Definition moves_inwards (p : Vector3) : bool :=
  PrimFloat.ltb (distance (inflate 0.15 p)) (distance p).
(** The inflation takes the vertex farther from the origin. *)
Definition moves_outwards (p : Vector3) : bool :=
  PrimFloat.ltb (distance p) (distance (inflate 0.15 p)).
End SquareHead.

(** The nine fields filled through [||], each with its property name, its
    projection and its default. *)
Definition string_fields : list (string * (AvatarConfig -> value) * string) :=
  [ ("headShape", headShape, "round");
    ("headColor", headColor, "#ffccaa");
    ("hairStyle", hairStyle, "short");
    ("hairColor", hairColor, "#4a3728");
    ("eyeStyle", eyeStyle, "dots");
    ("eyeColor", eyeColor, "#333333");
    ("eyebrowStyle", eyebrowStyle, "normal");
    ("noseStyle", noseStyle, "small");
    ("mouthStyle", mouthStyle, "smile") ].




(** An agent whose every write is rejected because the network is down. *)
Definition offline : Agent := {|
  session_did := Some "did:plc:alice";
  getRecord := fun _ _ _ => inl {| message := Some "Failed to fetch"; status := None |};
  putRecord := fun _ _ _ _ => Some {| message := Some "Failed to fetch"; status := None |};
  createRecord := fun _ _ _ _ => Some {| message := Some "Failed to fetch"; status := None |};
  clock := fun _ => "2024-01-01T00:00:00.000Z";
  typeErrorMessage := "Cannot read properties of undefined"
|}.

(** A freshly logged-in page: default configuration, nothing emitted yet. *)
Definition fresh_page : Page :=
  {| isLoggedIn := true; currentConfig := defaultConfig;
     avatarGroup := buildAvatar defaultConfig new_Group;
     sent := []; notifications := []; console := [] |}.

(** The value [loadAvatarFromBluesky] returns for "no record yet". *)
Definition no_avatar_yet : Result :=
  {| success := false; error := Some "No avatar saved yet" |}.

(** The session's access token has expired: the store answers 400. *)
Definition expired : Agent := {|
  session_did := Some "did:plc:alice";
  getRecord := fun _ _ _ => inl {| message := Some "Token has expired"; status := Some 400%Z |};
  putRecord := fun _ _ _ _ => None;
  createRecord := fun _ _ _ _ => None;
  clock := fun _ => "2024-01-01T00:00:00.000Z";
  typeErrorMessage := "Cannot read properties of undefined"
|}.

(** The store fails with a server error whose text happens to be the text
    the page uses for "no record yet". *)
Definition confusing : Agent := {|
  session_did := Some "did:plc:alice";
  getRecord := fun _ _ _ => inl {| message := Some "No avatar saved yet"; status := Some 500%Z |};
  putRecord := fun _ _ _ _ => None;
  createRecord := fun _ _ _ _ => None;
  clock := fun _ => "2024-01-01T00:00:00.000Z";
  typeErrorMessage := "Cannot read properties of undefined"
|}.

(** The record a fetched value is read as: its own properties when it is an
    object, none otherwise. *)
Definition properties (fetched : Fetched) : gmap string value :=
  match fetched with
  | FetchedObject record => record
  | FetchedOther _ => ∅
  end.

(** What the editor puts under its avatar root. *)
Definition editor_avatar (config : AvatarConfig) : list Object3D :=
  children_of (buildAvatar config new_Group).

(** The avatar portion of what the world front end puts under the player:
    the children of the group it adds. *)
Definition world_avatar (config : AvatarConfig) : list Object3D :=
  match children_of (Bskyplace.buildPlayerAvatar config new_Group) with
  | [avatarGroup] => children_of avatarGroup
  | _ => []
  end.

(** The meshes of a hierarchy. *)
Fixpoint count_meshes (o : Object3D) : nat :=
  match o with
  | Node what _ _ _ _ children =>
      (match what with IsMesh _ _ => 1 | IsGroup => 0 end)
      + list_sum (map count_meshes children)
  end.

Definition count_all (objects : list Object3D) : nat := list_sum (map count_meshes objects).

Definition squareConfig : AvatarConfig :=
  mkConfig (VStr "square") (VStr "#ffccaa") (VStr "short") (VStr "#4a3728")
           (VStr "dots") (VStr "#333333") (VStr "normal") (VStr "small")
           (VStr "smile") (VBool true).

(** The head of the world front end: the editor's head, except that the box
    of a square head is left as built. *)
Definition world_head (config : AvatarConfig) : Object3D :=
  set_castShadow true
    (if headShape config === "square" then
       new_Mesh (geometry_of (BoxGeometry 1.6 1.8 1.5 2 2 2))
                (Some (createMaterial (ColorOf (headColor config)) None))
     else createHead (headShape config) (headColor config)).

Section WorldAvatar.
Local Open Scope float_scope.

(** A mesh of the world's avatar: the geometry as constructed, a flat-shaded
    opaque material of the given colour, no rotation, scale one. *)
Definition world_mesh (shape : Primitive) (colour : value) (position : Vector3)
    (castShadow : bool) : Object3D :=
  Node (IsMesh (geometry_of shape)
               (Some {| color := ColorOf colour; flatShading := true;
                        transparent := false; opacity := 1 |}))
       position (vec3 0 0 0) (vec3 1 1 1) castShadow [].

(** The body: a capsule in the head colour, below the head. *)
Definition world_body (config : AvatarConfig) : Object3D :=
  world_mesh (CapsuleGeometry 0.4 0.8 4 8) (headColor config) (vec3 0 (-1.4) 0) true.

(** The three spikes of 'spiky', none of them rotated. *)
Definition world_spikes (config : AvatarConfig) : list Object3D :=
  map (fun position => world_mesh (ConeGeometry 0.15 0.5 4) (hairColor config) position true)
      [vec3 0 1.1 0; vec3 0.3 1.0 0.1; vec3 (-0.3) 1.0 0.1].

(** The cap of 'short'. *)
Definition world_cap (config : AvatarConfig) : Object3D :=
  world_mesh (SphereGeometry 1.05 8 6 0 (Math_PI * 2) 0 (Math_PI * 0.45))
             (hairColor config) (vec3 0 0.15 0) true.

(** The simplified hair: nothing for 'none', the spikes for 'spiky', the
    cap for every other value. *)
Definition world_hair (config : AvatarConfig) : list Object3D :=
  if hairStyle config === "none" then []
  else if hairStyle config === "spiky" then world_spikes config
  else [world_cap config].

(** Two dot eyes at x = -0.3 and x = 0.3. *)
Definition world_eyes (config : AvatarConfig) : list Object3D :=
  [ world_mesh (SphereGeometry3 0.08 8 6) (eyeColor config) (vec3 (-0.3) 0.15 0.85) false;
    world_mesh (SphereGeometry3 0.08 8 6) (eyeColor config) (vec3 0.3 0.15 0.85) false ].

(** A blush mark at the given x, turned about the y axis. *)
Definition world_blush_mark (x turn : float) : Object3D :=
  Node (IsMesh (geometry_of (CircleGeometry 0.1 6))
               (Some {| color := ColorHex 0xffaaaa; flatShading := false;
                        transparent := true; opacity := 0.6 |}))
       (vec3 x (-0.05) 0.75) (vec3 0 turn 0) (vec3 1 1 1) false [].

(** Two blush marks at x = -0.5 and x = 0.5 when [hasBlush] is truthy. *)
Definition world_blush (config : AvatarConfig) : list Object3D :=
  if truthy (hasBlush config)
  then [world_blush_mark (-0.5) (-0.4); world_blush_mark 0.5 0.4]
  else [].
End WorldAvatar.
(** ** The editor: controls and event handlers *)

(** The nine fields a button group edits. *)
Inductive Field : Type :=
| FHeadShape | FHeadColor | FHairStyle | FHairColor | FEyeStyle | FEyeColor
| FEyebrowStyle | FNoseStyle | FMouthStyle.

#[global] Instance Field_eq_dec : EqDecision Field.
Proof. solve_decision. Defined.

Definition all_fields : list Field :=
  [FHeadShape; FHeadColor; FHairStyle; FHairColor; FEyeStyle; FEyeColor;
   FEyebrowStyle; FNoseStyle; FMouthStyle].

Definition field_of (f : Field) (c : AvatarConfig) : value :=
  match f with
  | FHeadShape => headShape c
  | FHeadColor => headColor c
  | FHairStyle => hairStyle c
  | FHairColor => hairColor c
  | FEyeStyle => eyeStyle c
  | FEyeColor => eyeColor c
  | FEyebrowStyle => eyebrowStyle c
  | FNoseStyle => noseStyle c
  | FMouthStyle => mouthStyle c
  end.

(** [currentConfig.<field> = v] *)
Definition set_field (f : Field) (v : value) (c : AvatarConfig) : AvatarConfig :=
  match f with
  | FHeadShape => mkConfig v (headColor c) (hairStyle c) (hairColor c) (eyeStyle c)
                    (eyeColor c) (eyebrowStyle c) (noseStyle c) (mouthStyle c) (hasBlush c)
  | FHeadColor => mkConfig (headShape c) v (hairStyle c) (hairColor c) (eyeStyle c)
                    (eyeColor c) (eyebrowStyle c) (noseStyle c) (mouthStyle c) (hasBlush c)
  | FHairStyle => mkConfig (headShape c) (headColor c) v (hairColor c) (eyeStyle c)
                    (eyeColor c) (eyebrowStyle c) (noseStyle c) (mouthStyle c) (hasBlush c)
  | FHairColor => mkConfig (headShape c) (headColor c) (hairStyle c) v (eyeStyle c)
                    (eyeColor c) (eyebrowStyle c) (noseStyle c) (mouthStyle c) (hasBlush c)
  | FEyeStyle => mkConfig (headShape c) (headColor c) (hairStyle c) (hairColor c) v
                    (eyeColor c) (eyebrowStyle c) (noseStyle c) (mouthStyle c) (hasBlush c)
  | FEyeColor => mkConfig (headShape c) (headColor c) (hairStyle c) (hairColor c) (eyeStyle c)
                    v (eyebrowStyle c) (noseStyle c) (mouthStyle c) (hasBlush c)
  | FEyebrowStyle => mkConfig (headShape c) (headColor c) (hairStyle c) (hairColor c)
                    (eyeStyle c) (eyeColor c) v (noseStyle c) (mouthStyle c) (hasBlush c)
  | FNoseStyle => mkConfig (headShape c) (headColor c) (hairStyle c) (hairColor c)
                    (eyeStyle c) (eyeColor c) (eyebrowStyle c) v (mouthStyle c) (hasBlush c)
  | FMouthStyle => mkConfig (headShape c) (headColor c) (hairStyle c) (hairColor c)
                    (eyeStyle c) (eyeColor c) (eyebrowStyle c) (noseStyle c) v (hasBlush c)
  end.

(** [currentConfig.hasBlush = v] *)
Definition set_hasBlush (v : value) (c : AvatarConfig) : AvatarConfig :=
  mkConfig (headShape c) (headColor c) (hairStyle c) (hairColor c) (eyeStyle c)
           (eyeColor c) (eyebrowStyle c) (noseStyle c) (mouthStyle c) v.

(** A button of a group: its [data-*] value and whether it carries the
    class [active]. *)
Record Button : Type := mkButton {
  data : string;
  active : bool
}.

(** The buttons of each group as [createUI] writes them into the panel, in
    document order; the first column is the [data-*] value. *)
Definition offered (f : Field) : list string :=
  match f with
  | FHeadShape => ["round"; "oval"; "square"]
  | FHeadColor => ["#ffccaa"; "#ffe4c4"; "#f5d0c5"; "#deb887"; "#d2a679"; "#a67c52";
                   "#8d5524"; "#a8e6cf"; "#ffd3b6"; "#c5b4e3"]
  | FHairStyle => ["none"; "short"; "spiky"; "bob"; "ponytail"]
  | FHairColor => ["#4a3728"; "#2c1810"; "#8b7355"; "#d4a574"; "#ffd700"; "#ff6b6b";
                   "#4ecdc4"; "#9b59b6"; "#3498db"; "#1a1a2e"]
  | FEyebrowStyle => ["none"; "normal"; "angry"; "worried"; "thick"]
  | FEyeStyle => ["dots"; "wide"; "sleepy"; "sparkle"]
  | FEyeColor => ["#333333"; "#4a4a4a"; "#2d5a27"; "#4a90d9"; "#8b4513"; "#9b59b6"]
  | FNoseStyle => ["none"; "small"; "round"; "pointed"]
  | FMouthStyle => ["smile"; "neutral"; "open"; "cat"; "surprised"]
  end.

(** The button that the markup marks [class="active"]. *)
Definition marked_active (f : Field) : string :=
  match f with
  | FHeadShape => "round"
  | FHeadColor => "#ffccaa"
  | FHairStyle => "short"
  | FHairColor => "#4a3728"
  | FEyebrowStyle => "normal"
  | FEyeStyle => "dots"
  | FEyeColor => "#333333"
  | FNoseStyle => "small"
  | FMouthStyle => "smile"
  end.

(** The control panel: the button groups and the blush checkbox. *)
Record Panel : Type := mkPanel {
  buttons : Field -> list Button;
  blushChecked : bool
}.

(** The panel as [createUI] builds it. *)
Definition initial_panel : Panel := {|
  buttons := fun f => map (fun d => mkButton d (String.eqb d (marked_active f))) (offered f);
  blushChecked := true
|}.

Definition set_buttons (f : Field) (bs : list Button) (p : Panel) : Panel :=
  {| buttons := fun g => if decide (g = f) then bs else buttons p g;
     blushChecked := blushChecked p |}.

(** What the auth section shows: the login form, or the handle with the
    logout, save and load buttons. *)
Inductive AuthView : Type :=
| LoginForm
| LoggedInView (handle : string).

(** The whole editor: the page state, the controls, the user handle and
    the auth section. *)
Record Editor : Type := mkEditor {
  page : Page;
  panel : Panel;
  userHandle : string;
  authView : AuthView
}.

Definition set_isLoggedIn (b : bool) (p : Page) : Page :=
  mkPage b (currentConfig p) (avatarGroup p) (sent p) (notifications p) (console p).

(** The editor once the module has run: default configuration, the avatar
    built from it, the panel and the login form. *)
Definition initial_editor : Editor := {|
  page := {| isLoggedIn := false; currentConfig := defaultConfig;
             avatarGroup := buildAvatar defaultConfig new_Group;
             sent := []; notifications := []; console := [] |};
  panel := initial_panel;
  userHandle := "";
  authView := LoginForm
|}.

(** The tail every editing handler shares: [buildAvatar(currentConfig)].
    ([updateConfigDisplay] then prints the configuration; the print-out is
    not part of the state.) *)
Definition rebuild (p : Page) : Page :=
  set_avatarGroup (buildAvatar (currentConfig p) (avatarGroup p)) p.

(** The click handler of the [i]-th button of a group: every button of the
    group loses [active], the clicked one gets it, its [data-*] value goes
    into the configuration and the avatar is rebuilt.  There is no event
    when there is no such button. *)
Definition onButtonClick (f : Field) (i : nat) (e : Editor) : Editor :=
  match buttons (panel e) f !! i with
  | None => e
  | Some target =>
      let cleared := map (fun b => mkButton (data b) false) (buttons (panel e) f) in
      let marked := <[i := mkButton (data target) true]> cleared in
      let config := set_field f (VStr (data target)) (currentConfig (page e)) in
      {| page := rebuild (set_config config (page e));
         panel := set_buttons f marked (panel e);
         userHandle := userHandle e;
         authView := authView e |}
  end.

(** The change handler of the blush checkbox: the browser has flipped the
    box, the handler copies [checked] into the configuration and rebuilds. *)
Definition onBlushToggle (e : Editor) : Editor :=
  let checked := negb (blushChecked (panel e)) in
  let config := set_hasBlush (VBool checked) (currentConfig (page e)) in
  {| page := rebuild (set_config config (page e));
     panel := {| buttons := buttons (panel e); blushChecked := checked |};
     userHandle := userHandle e;
     authView := authView e |}.

(** [updateUIFromConfig()]: every button is [active] exactly when its
    [data-*] value is strictly equal to the field of the configuration;
    the checkbox takes [hasBlush], coerced to a boolean. *)
Definition updateUIFromConfig (config : AvatarConfig) (p : Panel) : Panel :=
  {| buttons := fun f =>
       map (fun b => mkButton (data b) (field_of f config === data b)) (buttons p f);
     blushChecked := truthy (hasBlush config) |}.

(** [updateAuthUI()] *)
Definition updateAuthUI (e : Editor) : Editor :=
  {| page := page e; panel := panel e; userHandle := userHandle e;
     authView := if isLoggedIn (page e) then LoggedInView (userHandle e) else LoginForm |}.

(** [loadAvatarFromBluesky()] with its effect on the controls: the [try]
    block calls [updateUIFromConfig] once the configuration is replaced, so
    the panel is refreshed exactly when the load succeeds. *)
Definition loadAvatar (agent : Agent) (e : Editor) : Editor * Result :=
  let '(page', result) := loadAvatarFromBluesky agent (page e) in
  ({| page := page';
      panel := if success result then updateUIFromConfig (currentConfig page') (panel e)
               else panel e;
      userHandle := userHandle e;
      authView := authView e |}, result).

(** [login(handle, password)]; [answer] is how [agent.login] settles
    ([None]: it resolved) and [agent] what the store answers afterwards.
    The result of the load is dropped. *)
Definition login (answer : option JsError) (agent : Agent) (handle : string)
    (e : Editor) : Editor * Result :=
  match answer with
  | None =>
      let e1 := {| page := set_isLoggedIn true (page e); panel := panel e;
                   userHandle := handle; authView := authView e |} in
      let e2 := updateAuthUI e1 in
      let '(e3, _) := loadAvatar agent e2 in
      (e3, {| success := true; error := None |})
  | Some err =>
      ({| page := console_write (ConsoleError "Login error:") (page e); panel := panel e;
          userHandle := userHandle e; authView := authView e |},
       {| success := false; error := Some (message_or "Login failed" err) |})
  end.

(** [logout()] *)
Definition logout (e : Editor) : Editor :=
  updateAuthUI {| page := set_isLoggedIn false (page e); panel := panel e;
                  userHandle := ""; authView := authView e |}.

Definition on_page (f : Page -> Page) (e : Editor) : Editor :=
  {| page := f (page e); panel := panel e; userHandle := userHandle e;
     authView := authView e |}.

(** What the user can do to the editor.  [ClickLogin] carries the trimmed
    handle and the password typed into the form. *)
Inductive Event : Type :=
| ClickButton (f : Field) (i : nat)
| ToggleBlush
| ClickLogin (handle password : string) (answer : option JsError) (agent : Agent)
| ClickLogout
| ClickSave (agent : Agent)
| ClickLoad (agent : Agent).

(** The handler an event runs.  The login button exists in the login form
    only; the logout, save and load buttons exist in the logged-in view
    only. *)
Definition handle (ev : Event) (e : Editor) : Editor :=
  match ev, authView e with
  | ClickButton f i, _ => onButtonClick f i e
  | ToggleBlush, _ => onBlushToggle e
  | ClickLogin handle password answer agent, LoginForm =>
      if String.eqb handle "" || String.eqb password "" then
        on_page (showNotification "Please enter handle and password") e
      else
        let '(e', result) := login answer agent handle e in
        if negb (success result) then on_page (showNotification (error_text result)) e'
        else e'
  | ClickLogout, LoggedInView _ => logout e
  | ClickSave agent, LoggedInView _ => on_page (onSaveClick agent) e
  | ClickLoad agent, LoggedInView _ =>
      let '(e', result) := loadAvatar agent e in
      if negb (success result)
         && negb (bool_decide (error result = Some "No avatar saved yet")) then
        on_page (showNotification (error_text result)) e'
      else e'
  | _, _ => e
  end.

(** The editor after a run of events. *)
Definition run (events : list Event) : Editor := foldl (fun e ev => handle ev e) initial_editor events.

(** The avatar on screen is the one of the live configuration. *)
Definition in_sync (e : Editor) : Prop :=
  children_of (avatarGroup (page e)) = parts (currentConfig (page e)).

(** The controls show the live configuration: the groups hold the buttons
    of the markup, a button is [active] exactly when its value is the value
    of its field, and the checkbox is ticked exactly when [hasBlush] is
    truthy. *)
Definition controls_match (e : Editor) : Prop :=
  (forall f, map data (buttons (panel e) f) = offered f)
  /\ (forall f, Forall (fun b => active b = (field_of f (currentConfig (page e)) === data b))
                       (buttons (panel e) f))
  /\ blushChecked (panel e) = truthy (hasBlush (currentConfig (page e))).

(** The auth section shows the session: the logged-in view with the user's
    handle exactly when the session flag is set. *)
Definition auth_matches (e : Editor) : Prop :=
  authView e = if isLoggedIn (page e) then LoggedInView (userHandle e) else LoginForm.

(** What holds of the editor at every moment: see [in_sync],
    [controls_match] and [auth_matches]. *)
Definition invariant (e : Editor) : Prop :=
  in_sync e /\ controls_match e /\ auth_matches e.






(** A store whose avatar record holds a head shape the taxonomy does not
    know and a colour the swatches do not offer. *)
Definition odd_store : Agent := {|
  session_did := Some "did:plc:alice";
  getRecord := fun _ _ _ =>
    inr (FetchedObject (<["headShape" := VStr "triangle"]>
                        (<["hairColor" := VStr "#123456"]> ∅)));
  putRecord := fun _ _ _ _ => None;
  createRecord := fun _ _ _ _ => None;
  clock := fun _ => "2024-01-01T00:00:00.000Z";
  typeErrorMessage := "Cannot read properties of undefined"
|}.

(** The colours of the materials of the meshes of a hierarchy, in order. *)
Fixpoint mesh_colors (o : Object3D) : list Color :=
  match o with
  | Node what _ _ _ _ children =>
      (match what with
       | IsMesh _ (Some m) => [color m]
       | _ => []
       end) ++ concat (map mesh_colors children)
  end.

(** The record a write request carries. *)
Definition written (r : Request) : option (gmap string value) :=
  match r with
  | PutRecord _ _ _ record | CreateRecord _ _ _ record => Some record
  | GetRecord _ _ _ => None
  end.

(** A store that accepts every write, and one that returns a given record
    for every read. *)
Definition accepting : Agent := {|
  session_did := Some "did:plc:alice";
  getRecord := fun _ _ _ => inl {| message := Some "Could not locate record"; status := Some 400%Z |};
  putRecord := fun _ _ _ _ => None;
  createRecord := fun _ _ _ _ => None;
  clock := fun _ => "2024-01-01T00:00:00.000Z";
  typeErrorMessage := "Cannot read properties of undefined"
|}.

Definition returning (record : gmap string value) : Agent := {|
  session_did := Some "did:plc:alice";
  getRecord := fun _ _ _ => inr (FetchedObject record);
  putRecord := fun _ _ _ _ => None;
  createRecord := fun _ _ _ _ => None;
  clock := fun _ => "2024-06-01T00:00:00.000Z";
  typeErrorMessage := "Cannot read properties of undefined"
|}.

(** ** The world front end: avatar loading, worlds, input *)

Module World.

(** *** Post colours *)

(** ToInt32: the wrap-around of a bitwise operand to 32 signed bits. *)
Definition ToInt32 (z : Z) : Z :=
  let m := (z mod 2 ^ 32)%Z in
  if (2 ^ 31 <=? m)%Z then (m - 2 ^ 32)%Z else m.

(** [hash << 5] *)
Definition shift_left_5 (hash : Z) : Z := ToInt32 (ToInt32 hash * 2 ^ 5).

(** One turn of the loop: [hash = str.charCodeAt(i) + ((hash << 5) - hash)].
    Only the shift wraps; the sum is a plain number. *)
Definition hash_step (hash code : Z) : Z := (code + (shift_left_5 hash - hash))%Z.

(** The hash of a string, given as its UTF-16 code units. *)
Definition hash_of (str : list Z) : Z := foldl hash_step 0%Z str.

Definition cyberColors : list string :=
  ["#00ffff"; "#ff00ff"; "#00ff88"; "#ffff00"; "#ff8800"; "#88ff00"; "#ff0088"; "#0088ff"].

(** [stringToCyberColor(str)]; [None] stands for the [undefined] an index
    outside the array would give. *)
Definition stringToCyberColor (str : list Z) : option string :=
  cyberColors !! Z.to_nat (Z.abs (hash_of str) mod Z.of_nat (length cyberColors)).

(** The code units of a string of ASCII characters. *)
Definition code_units (s : string) : list Z :=
  map (fun a => Z.of_nat (nat_of_ascii a)) (String.list_ascii_of_string s).

(** *** Loading the avatar *)

(** The part of the world's state the avatar code touches. *)
Record Session : Type := mkSession {
  isLoggedIn : bool;
  playerAvatar : AvatarConfig;
  player : Object3D;
  sent : list Request;
  notifications : list string;
  console : list string
}.

(** The session once the module has run, nobody logged in. *)
Definition initial_session : Session := {|
  isLoggedIn := false;
  playerAvatar := defaultConfig;
  player := Bskyplace.buildPlayerAvatar defaultConfig
              (position_set 10 0 0 new_Group);
  sent := []; notifications := []; console := []
|}.

(** [loadAvatarFromBluesky()] of the world: one [try] around the fetch, the
    decoding and the rebuild; its [catch] takes every error alike. *)
Definition loadAvatarFromBluesky (agent : Agent) (s : Session) : Session :=
  if negb (isLoggedIn s) then s
  else
    match session_did agent with
    | None => s
    | Some repo =>
        if String.eqb repo "" then s
        else
          let requested :=
            mkSession (isLoggedIn s) (playerAvatar s) (player s)
                      (sent s ++ [GetRecord repo "xyz.bskatar.avatar" "self"])
                      (notifications s) (console s) in
          let failed :=
            mkSession (isLoggedIn s) (playerAvatar s) (player s) (sent requested)
                      (notifications s)
                      (console s ++ ["No bskatar found, using default avatar"]) in
          match getRecord agent repo "xyz.bskatar.avatar" "self" with
          | inl _ => failed
          | inr (FetchedOther VUndefined) | inr (FetchedOther VNull) => failed
          | inr fetched =>
              let record :=
                match fetched with
                | FetchedObject record => record
                | FetchedOther _ => ∅
                end in
              let avatar := Bskyplace.fromRecord record in
              mkSession (isLoggedIn s) avatar
                        (Bskyplace.buildPlayerAvatar avatar (player s))
                        (sent requested)
                        (notifications s ++ ["Loaded your bskatar!"]) (console s)
          end
    end.

(** The player group shows the avatar of [playerAvatar], and nothing else. *)
Definition in_step (s : Session) : Prop :=
  children_of (player s)
  = children_of (Bskyplace.buildPlayerAvatar (playerAvatar s) new_Group).

(** A session that is logged in, otherwise as the module leaves it. *)
Definition logged_in_session : Session :=
  mkSession true (playerAvatar initial_session) (player initial_session) [] [] [].

(** *** The two worlds *)

Inductive WorldTheme : Type := cyber | fantasy.

#[global] Instance WorldTheme_eq_dec : EqDecision WorldTheme.
Proof. solve_decision. Defined.

(** The part of the scene that [switchWorld] and the teleporter touch. *)
Record Scene : Type := mkScene {
  currentWorld : WorldTheme;
  background : string;
  fog : string * float * float;
  cyberGroup_visible : bool;
  fantasyGroup_visible : bool;
  teleportPortal_visible : bool;
  fantasyPortal_visible : bool;
  player_position : Vector3;
  shown : list string
}.

(** The scene once the module has run. *)
Definition initial_scene : Scene := {|
  currentWorld := cyber;
  background := "#0a0a1a";
  fog := ("#0a0a1a", 30%float, 100%float);
  cyberGroup_visible := true;
  fantasyGroup_visible := false;
  teleportPortal_visible := true;
  fantasyPortal_visible := false;
  player_position := vec3 10 0 0;
  shown := []
|}.

(** [switchWorld(theme)] *)
Definition switchWorld (theme : WorldTheme) (s : Scene) : Scene :=
  if decide (currentWorld s = theme) then s
  else
    let name := match theme with cyber => "CYBER NET" | fantasy => "FANTASY GROVE" end in
    let note := ("Teleported to " +:+ name +:+ "!")%string in
    match theme with
    | cyber =>
        mkScene theme "#0a0a1a" ("#0a0a1a", 30%float, 100%float)
                true false true false (vec3 10 0 0) (shown s ++ [note])
    | fantasy =>
        mkScene theme "#87ceeb" ("#a8d8a8", 40%float, 120%float)
                false true false true (vec3 10 0 0) (shown s ++ [note])
    end.

(** The teleporter check of each frame: the portal of either world is at
    (-12, 0, -12); closer than 2 to it, the player is sent to the other
    world. *)
Definition teleport (s : Scene) : Scene :=
  let portalDx := (vx (player_position s) - (-12))%float in
  let portalDz := (vz (player_position s) - (-12))%float in
  let portalDist := PrimFloat.sqrt (portalDx * portalDx + portalDz * portalDz) in
  if PrimFloat.ltb portalDist 2 then
    switchWorld (match currentWorld s with cyber => fantasy | fantasy => cyber end) s
  else s.

(** What the flags of the scene must say in each world. *)
Definition consistent (s : Scene) : Prop :=
  match currentWorld s with
  | cyber =>
      cyberGroup_visible s = true /\ teleportPortal_visible s = true
      /\ fantasyGroup_visible s = false /\ fantasyPortal_visible s = false
      /\ background s = "#0a0a1a"
  | fantasy =>
      cyberGroup_visible s = false /\ teleportPortal_visible s = false
      /\ fantasyGroup_visible s = true /\ fantasyPortal_visible s = true
      /\ background s = "#87ceeb"
  end.

(** *** Keyboard and wheel *)

Record Keys : Type := mkKeys {
  forward : bool;
  backward : bool;
  left : bool;
  right : bool;
  sprint : bool;
  jump : bool
}.

Record Post : Type := mkPost {
  uri : string;
  author_handle : string;
  author_displayName : option string;
  text : string;
  createdAt : string
}.

(** The post viewer: whether it is displayed, and its two lines. *)
Record Viewer : Type := mkViewer {
  displayed : bool;
  author_line : string;
  text_line : string
}.

(** The part of the world's state the key handlers touch. *)
Record Controls : Type := mkControls {
  keys : Keys;
  verticalVelocity : float;
  isGrounded : bool;
  closestPost : option Post;
  viewer : Viewer
}.

Definition JUMP_FORCE : float := 8%float.

(** [showPostViewer(post)] *)
Definition showPostViewer (post : Post) : Viewer :=
  let name :=
    match author_displayName post with
    | Some n => if String.eqb n "" then "" else (" (" +:+ n +:+ ")")%string
    | None => ""
    end in
  {| displayed := true;
     author_line := ("@" +:+ author_handle post +:+ name)%string;
     text_line := text post |}.

Definition set_keys (k : Keys) (c : Controls) : Controls :=
  mkControls k (verticalVelocity c) (isGrounded c) (closestPost c) (viewer c).

Definition code_is (code : string) (labels : list string) : bool :=
  existsb (String.eqb code) labels.

(** The [keydown] listener, by [e.code]. *)
Definition keydown (code : string) (c : Controls) : Controls :=
  let k := keys c in
  if code_is code ["KeyW"; "ArrowUp"] then
    set_keys (mkKeys true (backward k) (left k) (right k) (sprint k) (jump k)) c
  else if code_is code ["KeyS"; "ArrowDown"] then
    set_keys (mkKeys (forward k) true (left k) (right k) (sprint k) (jump k)) c
  else if code_is code ["KeyA"; "ArrowLeft"] then
    set_keys (mkKeys (forward k) (backward k) true (right k) (sprint k) (jump k)) c
  else if code_is code ["KeyD"; "ArrowRight"] then
    set_keys (mkKeys (forward k) (backward k) (left k) true (sprint k) (jump k)) c
  else if code_is code ["ShiftLeft"; "ShiftRight"] then
    set_keys (mkKeys (forward k) (backward k) (left k) (right k) true (jump k)) c
  else if code_is code ["Space"] then
    if isGrounded c then mkControls k JUMP_FORCE false (closestPost c) (viewer c)
    else c
  else if code_is code ["KeyE"] then
    match closestPost c with
    | Some post => mkControls k (verticalVelocity c) (isGrounded c) (closestPost c)
                              (showPostViewer post)
    | None => c
    end
  else c.

(** The [keyup] listener, by [e.code]. *)
Definition keyup (code : string) (c : Controls) : Controls :=
  let k := keys c in
  if code_is code ["KeyW"; "ArrowUp"] then
    set_keys (mkKeys false (backward k) (left k) (right k) (sprint k) (jump k)) c
  else if code_is code ["KeyS"; "ArrowDown"] then
    set_keys (mkKeys (forward k) false (left k) (right k) (sprint k) (jump k)) c
  else if code_is code ["KeyA"; "ArrowLeft"] then
    set_keys (mkKeys (forward k) (backward k) false (right k) (sprint k) (jump k)) c
  else if code_is code ["KeyD"; "ArrowRight"] then
    set_keys (mkKeys (forward k) (backward k) (left k) false (sprint k) (jump k)) c
  else if code_is code ["ShiftLeft"; "ShiftRight"] then
    set_keys (mkKeys (forward k) (backward k) (left k) (right k) false (jump k)) c
  else c.

(** The controls once the module has run: no key held, the player standing,
    no post near, the viewer hidden. *)
Definition initial_controls : Controls := {|
  keys := mkKeys false false false false false false;
  verticalVelocity := 0%float;
  isGrounded := true;
  closestPost := None;
  viewer := {| displayed := false; author_line := ""; text_line := "" |}
|}.

(** The codes the listeners bind to each movement flag. *)
Definition bindings : list (list string * (Keys -> bool)) :=
  [ (["KeyW"; "ArrowUp"], forward);
    (["KeyS"; "ArrowDown"], backward);
    (["KeyA"; "ArrowLeft"], left);
    (["KeyD"; "ArrowRight"], right);
    (["ShiftLeft"; "ShiftRight"], sprint) ].

(** The direction the frame loop reads off the keys, before it is
    normalized: [playerDirection] after the four [if]s. *)
Definition playerDirection (k : Keys) : Vector3 :=
  let d := vec3 0 0 0 in
  let d := if forward k then vec3 (vx d - 1) (vy d) (vz d - 1) else d in
  let d := if backward k then vec3 (vx d + 1) (vy d) (vz d + 1) else d in
  let d := if left k then vec3 (vx d - 1) (vy d) (vz d + 1) else d in
  let d := if right k then vec3 (vx d + 1) (vy d) (vz d - 1) else d in
  d.

(** [playerDirection.length() > 0]: the player is moved and turned this
    frame. *)
Definition moving (k : Keys) : bool :=
  let d := playerDirection k in
  PrimFloat.ltb 0 (PrimFloat.sqrt (vx d * vx d + vy d * vy d + vz d * vz d)).

(** [Math.min] and [Math.max] of two numbers. *)
Definition Math_min (a b : float) : float :=
  if PrimFloat.is_nan a || PrimFloat.is_nan b then nan
  else if PrimFloat.ltb a b then a
  else if PrimFloat.ltb b a then b
  else if PrimFloat.is_zero a && PrimFloat.get_sign a then a else b.

Definition Math_max (a b : float) : float :=
  if PrimFloat.is_nan a || PrimFloat.is_nan b then nan
  else if PrimFloat.ltb a b then b
  else if PrimFloat.ltb b a then a
  else if PrimFloat.is_zero a && PrimFloat.get_sign a then b else a.

Definition MIN_ZOOM : float := 10%float.
Definition MAX_ZOOM : float := 40%float.

(** The [wheel] listener: the new [targetFrustumSize]. *)
Definition onWheel (deltaY targetFrustumSize : float) : float :=
  let targetFrustumSize := (targetFrustumSize + deltaY * 0.02)%float in
  Math_max MIN_ZOOM (Math_min MAX_ZOOM targetFrustumSize).

(** *** The post in reach *)

Definition INTERACT_DISTANCE : float := 6%float.

(** A post of [posts]: its data, and the position of its mesh when it has
    one. *)
Record ScenePost : Type := mkScenePost {
  the_post : Post;
  mesh_position : option Vector3
}.

(** The distance of a post's mesh to the player, in the XZ plane. *)
Definition post_distance (player_position mesh : Vector3) : float :=
  let dx := (vx mesh - vx player_position)%float in
  let dz := (vz mesh - vz player_position)%float in
  PrimFloat.sqrt (dx * dx + dz * dz).

(** One turn of the frame's [posts.forEach], on [minDist] and
    [closestPost]. *)
Definition closest_step (player_position : Vector3)
  (state : float * option ScenePost) (post : ScenePost) : float * option ScenePost :=
  match mesh_position post with
  | Some mesh =>
      let dist := post_distance player_position mesh in
      if PrimFloat.ltb dist INTERACT_DISTANCE && PrimFloat.ltb dist (fst state)
      then (dist, Some post)
      else state
  | None => state
  end.

(** [closestPost] after the loop, which starts from [Infinity] and [null]. *)
Definition findClosestPost (player_position : Vector3) (posts : list ScenePost) :
  option ScenePost :=
  snd (foldl (closest_step player_position) (infinity, None) posts).

(** The distance of a post to the player, for a post with a mesh. *)
Definition reach (player_position : Vector3) (post : ScenePost) : option float :=
  post_distance player_position <$> mesh_position post.

End World.


(** * Properties *)

(** ** Scene-graph basics *)

Lemma remove_children_nil (children : list Object3D) : remove_children children = [].
Proof. induction children as [|first rest IH]; [reflexivity | exact IH]. Qed.

Lemma children_of_clear (g : Object3D) : children_of (clear g) = [].
Proof. destruct g; apply remove_children_nil. Qed.

Lemma children_of_add (g : Object3D) (objects : list Object3D) :
  children_of (add g objects) = children_of g ++ objects.
Proof. destruct g; reflexivity. Qed.

Lemma buildAvatar_unfold (config : AvatarConfig) (g : Object3D) :
  buildAvatar config g = with_children (parts config) g.
Proof.
  destruct g as [w p r s sh cs].
  unfold buildAvatar, parts, clear, with_children.
  rewrite remove_children_nil.
  destruct (truthy (hasBlush config)); reflexivity.
Qed.

Lemma with_children_twice (xs ys : list Object3D) (g : Object3D) :
  with_children xs (with_children ys g) = with_children xs g.
Proof. destruct g; reflexivity. Qed.

(** The loop of the square head visits every vertex once, so it is a map. *)
Lemma inflate_all_from (todo done : list Vector3) :
  foldl inflate_at (done ++ todo) (seq (length done) (length todo))
  = done ++ map (inflate 0.15) todo.
Proof.
  revert done. induction todo as [|p todo IH]; intros done.
  - reflexivity.
  - cbn [length seq foldl map].
    unfold inflate_at at 2.
    rewrite list_lookup_middle by reflexivity.
    rewrite insert_app_r_alt, Nat.sub_diag by reflexivity.
    cbn [insert list_insert].
    specialize (IH (done ++ [inflate 0.15 p])).
    rewrite length_app, Nat.add_1_r, <- !app_assoc in IH.
    exact IH.
Qed.

Lemma inflate_all_map (positions : list Vector3) :
  inflate_all positions = map (inflate 0.15) positions.
Proof. exact (inflate_all_from positions []). Qed.

(** ** C4: the assembler is idempotent *)

(** C4. Running [buildAvatar] twice in succession with the same
    configuration leaves exactly the hierarchy one run leaves: the same
    children, node for node, none of the first run's nodes remaining; and
    what was under the root before the first run plays no part. *)
Theorem buildAvatar_idempotent (config : AvatarConfig) (avatarGroup : Object3D) :
  buildAvatar config (buildAvatar config avatarGroup) = buildAvatar config avatarGroup
  /\ children_of (buildAvatar config (buildAvatar config avatarGroup))
     = children_of (buildAvatar config new_Group)
  /\ length (children_of (buildAvatar config (buildAvatar config avatarGroup)))
     = length (children_of (buildAvatar config avatarGroup)).
Proof.
  rewrite !buildAvatar_unfold, with_children_twice.
  destruct avatarGroup; repeat split; reflexivity.
Qed.

(** ** C8: what the assembler attaches, and in which order *)

(** C8, as stated, fails: with [hairStyle = 'none'] the hair generator
    returns an empty group, and [buildAvatar] attaches that empty group all
    the same, as the second of seven children. *)
Lemma buildAvatar_attaches_empty_hair :
  children_of (createHair (hairStyle bald) (hairColor bald)) = []
  /\ children_of (buildAvatar bald new_Group) !! 1%nat
     = Some (createHair (hairStyle bald) (hairColor bald))
  /\ length (children_of (buildAvatar bald new_Group)) = 7%nat.
Proof. repeat split; reflexivity. Qed.

(** C8, amended. [buildAvatar] detaches every child the avatar root had,
    then attaches the sub-assemblies of head, hair, nose, eyes, eyebrows and
    mouth, in that order and each of them whether empty or not, and after
    them the blush exactly when [hasBlush] is truthy. *)
Theorem buildAvatar_children (config : AvatarConfig) (avatarGroup : Object3D) :
  children_of (clear avatarGroup) = []
  /\ children_of (buildAvatar config avatarGroup)
     = [ createHead (headShape config) (headColor config);
         createHair (hairStyle config) (hairColor config);
         createNose (noseStyle config) (headColor config);
         createEyes (eyeStyle config) (eyeColor config);
         createEyebrows (eyebrowStyle config) (hairColor config);
         createMouth (mouthStyle config) ]
       ++ (if truthy (hasBlush config) then [createBlush] else []).
Proof.
  split; [apply children_of_clear |].
  rewrite buildAvatar_unfold. destruct avatarGroup; reflexivity.
Qed.

(** ** C1: a style outside the taxonomy *)

(** C1, as stated, fails for five of the six generators: a hair style that
    is not in the taxonomy yields the empty group, not the two meshes of
    the default ['short'], and likewise for eyebrows, nose, eyes and mouth. *)
Lemma unknown_style_is_not_default :
  one_of hairStyles (VStr "mohawk") = false
  /\ children_of (createHair (VStr "mohawk") (VStr "#4a3728")) = []
  /\ length (children_of (createHair (VStr "short") (VStr "#4a3728"))) = 2%nat
  /\ createHair (VStr "mohawk") (VStr "#4a3728") <> createHair (VStr "short") (VStr "#4a3728")
  /\ createEyebrows (VStr "bushy") (VStr "#4a3728")
     <> createEyebrows (VStr "normal") (VStr "#4a3728")
  /\ createNose (VStr "snub") (VStr "#ffccaa") <> createNose (VStr "small") (VStr "#ffccaa")
  /\ createEyes (VStr "wink") (VStr "#333333") <> createEyes (VStr "dots") (VStr "#333333")
  /\ createMouth (VStr "grin") <> createMouth (VStr "smile").
Proof.
  split; [reflexivity |]. split; [reflexivity |]. split; [reflexivity |].
  repeat split; intros H;
    apply (f_equal (fun o => length (children_of o))) in H;
    vm_compute in H; discriminate H.
Qed.

Lemma one_of_cons (s : string) (domain : list string) (v : value) :
  one_of (s :: domain) v = false -> (v === s) = false /\ one_of domain v = false.
Proof. unfold one_of. cbn [existsb]. apply orb_false_elim. Qed.

Ltac not_in_taxonomy H :=
  repeat (apply one_of_cons in H; let E := fresh "E" in destruct H as [E H]; try rewrite E);
  clear H.

(** C1, amended. On a style outside the taxonomy of its field every
    generator returns (none throws): the head generator falls back to the
    round head, the taxonomy default; the hair, eyebrow, nose, eye and mouth
    generators have no fallback branch and return the empty group. *)
Theorem generators_on_unknown_style (style color : value) :
  (one_of headShapes style = false ->
     createHead style color = createHead (VStr "round") color)
  /\ (one_of hairStyles style = false -> createHair style color = new_Group)
  /\ (one_of eyebrowStyles style = false -> createEyebrows style color = new_Group)
  /\ (one_of noseStyles style = false -> createNose style color = new_Group)
  /\ (one_of eyeStyles style = false -> createEyes style color = new_Group)
  /\ (one_of mouthStyles style = false -> createMouth style = new_Group).
Proof.
  repeat split; intros H.
  - unfold createHead. not_in_taxonomy H. reflexivity.
  - unfold createHair. not_in_taxonomy H. reflexivity.
  - unfold createEyebrows. not_in_taxonomy H. reflexivity.
  - unfold createNose. not_in_taxonomy H. reflexivity.
  - unfold createEyes. not_in_taxonomy H. reflexivity.
  - unfold createMouth. not_in_taxonomy H. reflexivity.
Qed.

Lemma generators_on_unknown_style_witness :
  createHead (VStr "mohawk") (VStr "#ffccaa") = createHead (VStr "round") (VStr "#ffccaa")
  /\ createHair (VStr "mohawk") (VStr "#ffccaa") = new_Group
  /\ createEyebrows (VStr "mohawk") (VStr "#ffccaa") = new_Group
  /\ createNose (VStr "mohawk") (VStr "#ffccaa") = new_Group
  /\ createEyes (VStr "mohawk") (VStr "#ffccaa") = new_Group
  /\ createMouth (VStr "mohawk") = new_Group.
Proof.
  destruct (generators_on_unknown_style (VStr "mohawk") (VStr "#ffccaa"))
    as (H1 & H2 & H3 & H4 & H5 & H6).
  split; [exact (H1 eq_refl) |].
  split; [exact (H2 eq_refl) |].
  split; [exact (H3 eq_refl) |].
  split; [exact (H4 eq_refl) |].
  split; [exact (H5 eq_refl) | exact (H6 eq_refl)].
Defined.

(** ** C5: the inflation of the square head *)

Lemma createHead_square_positions (color : value) :
  mesh_positions (createHead (VStr "square") color) = Some (map (inflate 0.15) headBox).
Proof.
  unfold createHead, mesh_positions, new_Mesh.
  change (VStr "square" === "round") with false.
  change (VStr "square" === "oval") with false.
  change (VStr "square" === "square") with true.
  cbv iota.
  change (position_attribute (geometry_of (BoxGeometry 1.6 1.8 1.5 2 2 2))) with (Some headBox).
  cbv iota beta zeta. unfold with_positions, position_attribute.
  rewrite inflate_all_map. reflexivity.
Qed.

(** C5, as stated, fails: the vertex at the centre of the +x face of the
    box, at distance 0.8 from the origin, is moved away from the origin by
    the inflation, not towards it. *)
Lemma square_head_face_centre_moves_outwards :
  let p := vec3 (fround 0.8) (-0) (-0) in
  headBox !! 4%nat = Some p
  /\ is_face_centre p = true
  /\ PrimFloat.ltb (distance p) (distance (inflate 0.15 p)) = true
  /\ PrimFloat.ltb (distance (inflate 0.15 p)) (distance p) = false
  /\ (mesh_positions (createHead (VStr "square") (VStr "#ffccaa")) ≫= (.!! 4%nat))
     = Some (inflate 0.15 p).
Proof.
  cbv zeta. repeat split; try (vm_compute; reflexivity).
Qed.

(** C5, amended. The square head is the 54-vertex box with every vertex
    moved by the inflation step, 0.15 of the way to the unit sphere along
    its own direction.  The vertices farther than 1 from the origin (all
    but the face centres: the corners and the edge midpoints) come strictly
    closer to it; the six face centres, nearer than 1, move strictly away
    from it; and every corner is moved by more than every face centre. *)
Theorem square_head_inflation :
  (forall color : value,
     mesh_positions (createHead (VStr "square") color) = Some (map (inflate 0.15) headBox))
  /\ length headBox = 54%nat
  /\ length (filter (fun p => is_face_centre p = true) headBox) = 6%nat
  /\ length (filter (fun p => is_corner p = true) headBox) = 24%nat
  /\ Forall (fun p =>
       if is_face_centre p
       then PrimFloat.ltb (distance p) 1 = true /\ moves_outwards p = true
       else PrimFloat.ltb 1 (distance p) = true /\ moves_inwards p = true) headBox
  /\ Forall (fun corner =>
       Forall (fun centre =>
         is_corner corner = true -> is_face_centre centre = true ->
         PrimFloat.ltb (displacement centre (inflate 0.15 centre))
                       (displacement corner (inflate 0.15 corner)) = true) headBox) headBox.
Proof.
  split; [exact createHead_square_positions |].
  split; [vm_compute; reflexivity |].
  split; [vm_compute; reflexivity |].
  split; [vm_compute; reflexivity |].
  split.
  - apply Forall_forall. intros p Hp.
    assert (Hall : forallb (fun p =>
              if is_face_centre p
              then PrimFloat.ltb (distance p) 1 && moves_outwards p
              else PrimFloat.ltb 1 (distance p) && moves_inwards p) headBox = true)
      by (vm_compute; reflexivity).
    rewrite forallb_forall in Hall. apply list_elem_of_In in Hp.
    specialize (Hall p Hp). destruct (is_face_centre p);
      apply andb_true_iff in Hall; exact Hall.
  - apply Forall_forall. intros corner Hc. apply Forall_forall. intros centre Hf Hcorner Hcentre.
    assert (Hall : forallb (fun corner => forallb (fun centre =>
              negb (is_corner corner && is_face_centre centre)
              || PrimFloat.ltb (displacement centre (inflate 0.15 centre))
                               (displacement corner (inflate 0.15 corner))) headBox) headBox = true)
      by (vm_compute; reflexivity).
    rewrite forallb_forall in Hall. apply list_elem_of_In in Hc, Hf.
    specialize (Hall corner Hc). rewrite forallb_forall in Hall.
    specialize (Hall centre Hf). rewrite Hcorner, Hcentre in Hall. exact Hall.
Qed.

Lemma square_head_inflation_witness :
  let corner := vec3 (fround 0.8) (fround 0.9) 0.75 in
  let centre := vec3 (fround 0.8) (-0) (-0) in
  PrimFloat.ltb (displacement centre (inflate 0.15 centre))
                (displacement corner (inflate 0.15 corner)) = true.
Proof.
  cbv zeta.
  destruct square_head_inflation as (_ & _ & _ & _ & _ & H).
  assert (Hcorner : headBox !! 0%nat = Some (vec3 (fround 0.8) (fround 0.9) 0.75))
    by (vm_compute; reflexivity).
  assert (Hcentre : headBox !! 4%nat = Some (vec3 (fround 0.8) (-0) (-0)))
    by (vm_compute; reflexivity).
  pose proof (Forall_lookup_1 _ _ _ _ H Hcorner) as Hc. cbv beta in Hc.
  pose proof (Forall_lookup_1 _ _ _ _ Hc Hcentre) as Hf. cbv beta in Hf.
  apply Hf; vm_compute; reflexivity.
Defined.

(** ** The codec: C2, C3, C10 *)

Lemma get_insert_eq (record : gmap string value) (key : string) (v : value) :
  get (<[key := v]> record) key = v.
Proof. unfold get. by rewrite lookup_insert_eq. Qed.

Lemma get_insert_ne (record : gmap string value) (key other : string) (v : value) :
  key <> other -> get (<[key := v]> record) other = get record other.
Proof. intros Hne. unfold get. by rewrite lookup_insert_ne. Qed.


(** Reading back what [toRecord] wrote. *)
Lemma get_toRecord (createdAt : string) (c : AvatarConfig) :
  let r := toRecord createdAt c in
  get r "headShape" = headShape c /\ get r "headColor" = headColor c
  /\ get r "hairStyle" = hairStyle c /\ get r "hairColor" = hairColor c
  /\ get r "eyeStyle" = eyeStyle c /\ get r "eyeColor" = eyeColor c
  /\ get r "eyebrowStyle" = eyebrowStyle c /\ get r "noseStyle" = noseStyle c
  /\ get r "mouthStyle" = mouthStyle c /\ get r "hasBlush" = hasBlush c.
Proof.
  cbv zeta. unfold toRecord, spread.
  repeat split; repeat (rewrite get_insert_ne by discriminate); apply get_insert_eq.
Qed.

Lemma one_of_truthy (domain : list string) (v : value) :
  Forall (fun s => s <> "") domain -> one_of domain v = true -> truthy v = true.
Proof.
  intros Hdom H. unfold one_of in H. apply existsb_exists in H as (s & Hin & Heq).
  destruct v as [| |b|n|t|i]; try discriminate Heq.
  cbn in Heq. apply String.eqb_eq in Heq. subst t.
  rewrite Forall_forall in Hdom. apply list_elem_of_In in Hin. specialize (Hdom s Hin).
  cbn. destruct s; [congruence | reflexivity].
Qed.

Lemma hex_color_truthy (v : value) : hex_color v = true -> truthy v = true.
Proof.
  destruct v as [| |b|n|s|i]; try discriminate.
  destruct s; cbn; [discriminate | reflexivity].
Qed.

Lemma js_or_truthy (v fallback : value) : truthy v = true -> js_or v fallback = v.
Proof. intros H. unfold js_or. by rewrite H. Qed.


(** Decoding undoes encoding as soon as the nine [||]-filled fields are
    truthy and [hasBlush] is neither [undefined] nor [null]. *)
Lemma fromRecord_toRecord (createdAt : string) (c : AvatarConfig) :
  Forall (fun f => truthy (f.1.2 c) = true) string_fields ->
  js_nullish (hasBlush c) (VBool true) = hasBlush c ->
  fromRecord (toRecord createdAt c) = c.
Proof.
  intros Hfields Hblush.
  destruct (get_toRecord createdAt c) as (G1 & G2 & G3 & G4 & G5 & G6 & G7 & G8 & G9 & G10).
  unfold fromRecord. rewrite G1, G2, G3, G4, G5, G6, G7, G8, G9, G10, Hblush.
  unfold string_fields in Hfields.
  repeat (apply Forall_cons_1 in Hfields as [?H Hfields]). cbn in *.
  rewrite !js_or_truthy by assumption.
  destruct c; reflexivity.
Qed.

Ltac split_andb H :=
  repeat (let H' := fresh "D" in apply andb_true_iff in H as [H H']).

(** C2. For every configuration whose ten fields hold values of their
    domains, decoding the record that encoding produces (the type tag, the
    ten fields, the creation time) gives the configuration back, field by
    field. *)
Theorem codec_round_trip (createdAt : string) (c : AvatarConfig) :
  in_domain c = true -> fromRecord (toRecord createdAt c) = c.
Proof.
  intros H. unfold in_domain in H. split_andb H.
  apply fromRecord_toRecord.
  - unfold string_fields. repeat constructor; cbn;
      first [ by apply hex_color_truthy
            | eapply one_of_truthy; [| eassumption];
              repeat constructor; discriminate ].
  - destruct (hasBlush c); try discriminate; reflexivity.
Qed.

Lemma codec_round_trip_witness :
  in_domain defaultConfig = true
  /\ fromRecord (toRecord "2024-01-01T00:00:00.000Z" defaultConfig) = defaultConfig.
Proof.
  split; [reflexivity |].
  apply (codec_round_trip "2024-01-01T00:00:00.000Z" defaultConfig). reflexivity.
Defined.

(** The two front ends fill defaults by the same object literal. *)
Lemma world_fromRecord (R : gmap string value) : Bskyplace.fromRecord R = fromRecord R.
Proof. reflexivity. Qed.







(** C10. On load [hasBlush] is filled by [??]: whatever the record holds
    under it is kept, [false] included, and the default [true] steps in only
    for [undefined], [null] or an absent property.  The nine string fields
    are filled by [||], that is by truthiness and not by presence: a truthy
    value is kept as supplied, and a value that is present but falsy (the
    empty string, [false], 0, [null]) is replaced by the field's default,
    like an absent one.  Both front ends behave so. *)
Theorem falsy_values_on_load (R : gmap string value) :
  Forall (fun decode : gmap string value -> AvatarConfig =>
      hasBlush (decode (<["hasBlush" := VBool false]> R)) = VBool false
      /\ hasBlush (decode (<["hasBlush" := VNull]> R)) = VBool true
      /\ hasBlush (decode (<["hasBlush" := VUndefined]> R)) = VBool true
      /\ hasBlush (decode (delete "hasBlush" R)) = VBool true
      /\ (forall v : value,
            hasBlush (decode (<["hasBlush" := v]> R))
            = if decide (v = VUndefined \/ v = VNull) then VBool true else v)
      /\ Forall (fun '(key, field, dflt) =>
           field (decode (<[key := VStr ""]> R)) = VStr dflt
           /\ field (decode (<[key := VBool false]> R)) = VStr dflt
           /\ field (decode (<[key := VNum 0]> R)) = VStr dflt
           /\ field (decode (delete key R)) = VStr dflt
           /\ (forall v : value,
                 field (decode (<[key := v]> R)) = if truthy v then v else VStr dflt))
         string_fields)
    [fromRecord; Bskyplace.fromRecord].
Proof.
  assert (Hdel : forall key, get (delete key R) key = VUndefined)
    by (intros key; unfold get; by rewrite lookup_delete_eq).
  assert (Hblush : forall v, js_nullish v (VBool true)
                             = if decide (v = VUndefined \/ v = VNull) then VBool true else v).
  { intros v. destruct (decide (v = VUndefined \/ v = VNull)) as [[-> | ->] | Hv];
      [reflexivity | reflexivity |].
    destruct v; try reflexivity; exfalso; apply Hv; auto. }
  repeat constructor; cbn; try intros v; rewrite ?get_insert_eq, ?Hdel;
    first [reflexivity | apply Hblush].
Qed.

(** ** The persistence gateway: C6, C7 *)

Ltac run_try :=
  cbv [mbind mret Try_bind Try_ret bind ret throw effect read catch
       session_repo await_write payload decode].

(** What a save sends under an authenticated session: first an update of
    the fixed slot, carrying the encoded configuration; then, whenever that
    update was rejected (the [catch] does not look at the error), a create
    of the same slot, carrying the same configuration encoded anew. *)
Lemma save_requests (agent : Agent) (page : Page) (did : string) :
  isLoggedIn page = true -> session_did agent = Some did -> did <> "" ->
  let n := length (sent page) in
  let update := toRecord (clock agent n) (currentConfig page) in
  let creation := toRecord (clock agent (S n)) (currentConfig page) in
  sent (saveAvatarToBluesky agent page).1
  = sent page ++
    PutRecord did AVATAR_COLLECTION AVATAR_RKEY update ::
    match putRecord agent did AVATAR_COLLECTION AVATAR_RKEY update with
    | None => []
    | Some _ => [CreateRecord did AVATAR_COLLECTION AVATAR_RKEY creation]
    end.
Proof.
  intros Hin Hdid Hne. cbv zeta.
  unfold saveAvatarToBluesky, save_try. rewrite Hin. cbn [negb].
  run_try. rewrite Hdid.
  destruct (String.eqb did "") eqn:E; [apply String.eqb_eq in E; contradiction |].
  destruct page as [li cfg grp snt nts cns]. cbn [sent currentConfig send length].
  destruct (putRecord agent did AVATAR_COLLECTION AVATAR_RKEY _) as [err|] eqn:Eput.
  - cbn [sent send currentConfig]. rewrite length_app, Nat.add_1_r.
    destruct (createRecord agent did _ _ _); cbn; rewrite <- app_assoc; reflexivity.
  - reflexivity.
Qed.

(** C6. Where the code departs from it: the update is rejected because the
    network is down, which is not "the record does not exist", and the save
    sends the create-style write all the same. *)
Theorem save_creates_after_any_update_failure :
  let record := toRecord "2024-01-01T00:00:00.000Z" defaultConfig in
  no_record_yet {| message := Some "Failed to fetch"; status := None |} = false
  /\ sent (saveAvatarToBluesky offline fresh_page).1
     = [ PutRecord "did:plc:alice" "xyz.bskatar.avatar" "self" record;
         CreateRecord "did:plc:alice" "xyz.bskatar.avatar" "self" record ]
  /\ (saveAvatarToBluesky offline fresh_page).2
     = {| success := false; error := Some "Failed to fetch" |}.
Proof. cbv zeta. repeat split; vm_compute; reflexivity. Qed.

(** C7, as stated, fails: an authentication failure answered with status
    400 comes back as the "no record yet" value and the load button shows
    nothing; and a failure that the page's own test does not take for a
    missing record, but whose message is the "no record yet" text, comes
    back as that same value, and is not shown either. *)
Lemma load_failure_passes_for_no_record :
  (loadAvatarFromBluesky expired fresh_page).2 = no_avatar_yet
  /\ notifications (onLoadClick expired fresh_page) = []
  /\ no_record_yet {| message := Some "No avatar saved yet"; status := Some 500%Z |} = false
  /\ (loadAvatarFromBluesky confusing fresh_page).2 = no_avatar_yet
  /\ notifications (onLoadClick confusing fresh_page) = [].
Proof. repeat split; vm_compute; reflexivity. Qed.

(** The [catch] of the load, after the [try] block threw. *)
Ltac load_failed :=
  cbn [fst snd send currentConfig avatarGroup notifications];
  destruct (no_record_yet _) eqn:?;
  [ cbn; repeat split; reflexivity
  | cbn [fst snd console_write currentConfig avatarGroup notifications
         success error negb andb];
    split; [reflexivity |]; split; [reflexivity |]; split; [reflexivity |];
    let Etext := fresh "Etext" in
    destruct (String.eqb (message_or "Load failed" _) "No avatar saved yet") eqn:Etext;
    [ apply String.eqb_eq in Etext; rewrite Etext;
      rewrite bool_decide_eq_true_2 by reflexivity; rewrite app_nil_r; reflexivity
    | apply String.eqb_neq in Etext;
      rewrite bool_decide_eq_false_2 by congruence; reflexivity ] ].

(** C7, amended. A load without a session flag returns the error "Not
    logged in" and touches nothing.  Otherwise it ends in exactly one of
    three ways.  (1) The [try] block completed: a value was fetched, decoded
    with default filling, made the live configuration, and the avatar
    rebuilt from it.  (2) It threw an error whose message contains "not
    found" or whose status is 400, whatever went wrong: the "no record yet"
    value is returned and the load button shows nothing.  (3) It threw any
    other error: a failure carrying the error's message (or "Load failed")
    is returned, and the load button shows it as an error unless the text
    is the "no record yet" text.  In (2) and (3) the live configuration and
    the avatar hierarchy are as they were before the call. *)
Theorem load_outcomes (agent : Agent) (page : Page) :
  let page' := (loadAvatarFromBluesky agent page).1 in
  let result := (loadAvatarFromBluesky agent page).2 in
  let shown := notifications (onLoadClick agent page) in
  if negb (isLoggedIn page) then
    page' = page
    /\ result = {| success := false; error := Some "Not logged in" |}
    /\ shown = notifications page ++ ["Error: Not logged in"]
  else
    match (load_try agent page).2 with
    | inr _ =>
        exists (did : string) (fetched : Fetched),
          session_did agent = Some did
          /\ getRecord agent did AVATAR_COLLECTION AVATAR_RKEY = inr fetched
          /\ result = {| success := true; error := None |}
          /\ currentConfig page' = fromRecord (properties fetched)
          /\ avatarGroup page'
             = buildAvatar (fromRecord (properties fetched)) (avatarGroup page)
          /\ shown = notifications page ++ ["Avatar loaded from Bluesky!"]
    | inl err =>
        currentConfig page' = currentConfig page
        /\ avatarGroup page' = avatarGroup page
        /\ if no_record_yet err then
             result = no_avatar_yet /\ shown = notifications page
           else
             let text := message_or "Load failed" err in
             result = {| success := false; error := Some text |}
             /\ shown = notifications page ++
                        (if String.eqb text "No avatar saved yet" then []
                         else ["Error: " +:+ text])
    end.
Proof.
  cbv zeta. unfold onLoadClick, loadAvatarFromBluesky.
  destruct page as [li cfg grp snt nts cns]. cbn [isLoggedIn].
  destruct li; cbn [negb]; [| repeat split; reflexivity].
  unfold load_try. run_try.
  destruct (session_did agent) as [did|] eqn:Edid.
  2: { cbn. repeat split; reflexivity. }
  destruct (String.eqb did "") eqn:Eempty.
  { cbn. repeat split; reflexivity. }
  destruct (getRecord agent did AVATAR_COLLECTION AVATAR_RKEY) as [err|fetched] eqn:Eget.
  - load_failed.
  - destruct fetched as [record|v]; [| destruct v].
    2, 3: load_failed.
    all: cbn; eexists did, _; repeat split; first [exact Eget | reflexivity].
Qed.

(** ** C9: the two front ends *)

Lemma inflation_moves_vertices : map (inflate 0.15) headBox <> headBox.
Proof.
  intros H.
  apply (f_equal (fun l => match l !! 4%nat with
                           | Some p => PrimFloat.eqb (vx p) (fround 0.8)
                           | None => false
                           end)) in H.
  vm_compute in H. discriminate H.
Qed.

(** C9, as stated, fails: for a square head the editor's vertices are the
    inflated ones and the world's are those of the plain box; and for the
    default configuration the editor builds eleven meshes (with nose,
    eyebrows and mouth) where the world builds seven (a body, no nose, no
    eyebrows, no mouth). *)
Lemma world_avatar_is_not_editor_avatar :
  (editor_avatar squareConfig !! 0%nat ≫= mesh_positions) = Some (map (inflate 0.15) headBox)
  /\ (world_avatar squareConfig !! 0%nat ≫= mesh_positions) = Some headBox
  /\ map (inflate 0.15) headBox <> headBox
  /\ count_all (editor_avatar defaultConfig) = 11%nat
  /\ count_all (world_avatar defaultConfig) = 7%nat
  /\ editor_avatar defaultConfig <> world_avatar defaultConfig.
Proof.
  split; [vm_compute; reflexivity |].
  split; [vm_compute; reflexivity |].
  split; [exact inflation_moves_vertices |].
  split; [vm_compute; reflexivity |].
  split; [vm_compute; reflexivity |].
  intros H. apply (f_equal count_all) in H. vm_compute in H. discriminate H.
Qed.

(** C9, amended. The two front ends share the configuration and decode a
    persisted record alike, but the world front end builds a simplified
    avatar of its own: under one group (raised by 1.2, scaled by 0.6) it
    puts, in this order and nothing else, the editor's head with a shadow,
    not inflated when square; a body capsule in the head colour at
    y = -1.4; the reduced hair (nothing for 'none', three unrotated spikes
    for 'spiky', otherwise the one cap, which is the cap of the editor's
    'short' hair with a shadow); two dot eyes at x = -0.3 and x = 0.3
    whatever the [eyeStyle]; two blush marks at x = -0.5 and x = 0.5 when
    [hasBlush] is truthy.  So there is no nose, no eyebrows and no mouth,
    and the result does not depend on [eyeStyle], [eyebrowStyle],
    [noseStyle] or [mouthStyle]. *)
Theorem world_avatar_simplified (config : AvatarConfig) :
  (forall R : gmap string value, Bskyplace.fromRecord R = fromRecord R)
  /\ (forall player : Object3D,
        children_of (Bskyplace.buildPlayerAvatar config player)
        = [Node IsGroup (vec3 0 1.2 0) (vec3 0 0 0) (vec3 0.6 0.6 0.6) false
             (world_avatar config)])
  /\ world_avatar config !! 0%nat = Some (world_head config)
  /\ world_avatar config
     = world_head config :: world_body config
       :: world_hair config ++ world_eyes config ++ world_blush config
  /\ children_of (createHair (VStr "short") (hairColor config)) !! 0%nat
     = Some (set_castShadow false (world_cap config))
  /\ count_all (world_avatar config)
     = (4 + (if hairStyle config === "none" then 0
             else if hairStyle config === "spiky" then 3 else 1)
          + (if truthy (hasBlush config) then 2 else 0))%nat
  /\ (forall (eyes brows nose mouth : value) (player : Object3D),
        Bskyplace.buildPlayerAvatar
          (mkConfig (headShape config) (headColor config) (hairStyle config)
                    (hairColor config) eyes (eyeColor config) brows nose mouth
                    (hasBlush config)) player
        = Bskyplace.buildPlayerAvatar config player).
Proof.
  split; [reflexivity |].
  split.
  { intros player. unfold world_avatar, Bskyplace.buildPlayerAvatar.
    rewrite !children_of_add, !children_of_clear.
    destruct (headShape config === "oval"), (headShape config === "square"),
             (hairStyle config === "none"), (hairStyle config === "spiky"),
             (truthy (hasBlush config)); reflexivity. }
  split.
  { unfold world_avatar, world_head, Bskyplace.buildPlayerAvatar, createHead.
    destruct (headShape config === "oval") eqn:Eo,
             (headShape config === "square") eqn:Es,
             (headShape config === "round") eqn:Er,
             (hairStyle config === "none"), (hairStyle config === "spiky"),
             (truthy (hasBlush config));
      try reflexivity.
    all: destruct (headShape config) as [| | | |s|]; try discriminate;
         cbn in Eo, Es, Er; apply String.eqb_eq in Eo; subst s; discriminate. }
  split.
  { unfold world_avatar, world_head, world_hair, world_blush,
      Bskyplace.buildPlayerAvatar, createHead.
    destruct (headShape config === "oval") eqn:Eo,
             (headShape config === "square") eqn:Es,
             (headShape config === "round") eqn:Er,
             (hairStyle config === "none"), (hairStyle config === "spiky"),
             (truthy (hasBlush config));
      try reflexivity.
    all: destruct (headShape config) as [| | | |s|]; try discriminate;
         cbn in Eo, Es, Er; apply String.eqb_eq in Eo; subst s; discriminate. }
  split; [reflexivity |].
  split.
  { unfold world_avatar, Bskyplace.buildPlayerAvatar.
    destruct (headShape config === "oval"), (headShape config === "square"),
             (hairStyle config === "none"), (hairStyle config === "spiky"),
             (truthy (hasBlush config)); reflexivity. }
  intros eyes brows nose mouth player. reflexivity.
Qed.

(** * Further properties of the editor *)

(** ** What a load and a save leave alone *)

(** A load either succeeds, replacing the configuration and rebuilding the
    avatar from it, or fails and leaves both; the session flag stays. *)
Lemma load_cases (agent : Agent) (p : Page) :
  let p' := (loadAvatarFromBluesky agent p).1 in
  let result := (loadAvatarFromBluesky agent p).2 in
  isLoggedIn p' = isLoggedIn p
  /\ if success result
     then avatarGroup p' = buildAvatar (currentConfig p') (avatarGroup p)
     else currentConfig p' = currentConfig p /\ avatarGroup p' = avatarGroup p.
Proof.
  cbv zeta. unfold loadAvatarFromBluesky.
  destruct p as [li cfg grp snt nts cns]. cbn [isLoggedIn].
  destruct li; cbn [negb]; [| repeat split; reflexivity].
  unfold load_try. run_try.
  destruct (session_did agent) as [did|]; [destruct (String.eqb did "") |];
    try (cbn; repeat split; reflexivity).
  destruct (getRecord agent did AVATAR_COLLECTION AVATAR_RKEY) as [err|[record|[]]];
    cbn [fst snd send currentConfig avatarGroup isLoggedIn];
    try destruct (no_record_yet _); cbn; repeat split; reflexivity.
Qed.

Lemma save_preserves (agent : Agent) (p : Page) :
  currentConfig (saveAvatarToBluesky agent p).1 = currentConfig p
  /\ avatarGroup (saveAvatarToBluesky agent p).1 = avatarGroup p
  /\ isLoggedIn (saveAvatarToBluesky agent p).1 = isLoggedIn p.
Proof.
  unfold saveAvatarToBluesky.
  destruct p as [li cfg grp snt nts cns]. cbn [isLoggedIn].
  destruct li; cbn [negb]; [| repeat split; reflexivity].
  unfold save_try. run_try.
  destruct (session_did agent) as [did|]; [destruct (String.eqb did "") |];
    try (cbn; repeat split; reflexivity).
  cbn [sent currentConfig send length].
  destruct (putRecord agent did AVATAR_COLLECTION AVATAR_RKEY _);
    [cbn [sent currentConfig send length];
     destruct (createRecord agent did AVATAR_COLLECTION AVATAR_RKEY _) |];
    cbn; repeat split; reflexivity.
Qed.

(** ** The invariant of the editor *)

Lemma children_of_with_children (xs : list Object3D) (g : Object3D) :
  children_of (with_children xs g) = xs.
Proof. destruct g; reflexivity. Qed.

Lemma rebuild_in_sync (p : Page) :
  children_of (avatarGroup (rebuild p)) = parts (currentConfig (rebuild p)).
Proof.
  destruct p as [li cfg grp snt nts cns]. unfold rebuild. cbn.
  rewrite buildAvatar_unfold. apply children_of_with_children.
Qed.

Lemma field_of_set_field_eq (f : Field) (v : value) (c : AvatarConfig) :
  field_of f (set_field f v c) = v.
Proof. destruct f; reflexivity. Qed.

Lemma field_of_set_field_ne (f g : Field) (v : value) (c : AvatarConfig) :
  g <> f -> field_of g (set_field f v c) = field_of g c.
Proof. destruct f, g; intros H; first [reflexivity | contradiction]. Qed.

Lemma offered_NoDup (f : Field) : NoDup (offered f).
Proof. destruct f; apply (bool_decide_unpack _); vm_compute; reflexivity. Qed.

Lemma initial_invariant : invariant initial_editor.
Proof.
  split; [| split].
  - unfold in_sync, initial_editor. cbn [page avatarGroup currentConfig].
    rewrite buildAvatar_unfold. apply children_of_with_children.
  - split; [| split].
    + intros f. destruct f; reflexivity.
    + intros f. apply Forall_forall. intros b Hb.
      destruct f; cbn in Hb;
        repeat (apply elem_of_cons in Hb as [-> | Hb]; [reflexivity |]);
        by apply elem_of_nil in Hb.
    + reflexivity.
  - reflexivity.
Qed.

Lemma onButtonClick_controls (f : Field) (i : nat) (e : Editor) :
  controls_match e -> controls_match (onButtonClick f i e).
Proof.
  intros (Hdata & Hactive & Hblush). unfold onButtonClick.
  destruct (buttons (panel e) f !! i) as [target|] eqn:Ei; [| by repeat split].
  assert (Hclr : map data (map (fun b => mkButton (data b) false) (buttons (panel e) f))
                 = offered f).
  { rewrite map_map. cbn. apply Hdata. }
  split; [| split]; cbn [page panel buttons blushChecked set_buttons].
  - intros g. destruct (decide (g = f)) as [-> | Hne]; [| apply Hdata].
    rewrite <- Hclr. apply list_eq. intros j.
    rewrite !list_lookup_fmap.
    destruct (decide (j = i)) as [-> | Hj].
    + rewrite list_lookup_insert_eq
        by (rewrite length_map; eapply lookup_lt_Some; exact Ei).
      rewrite Ei. reflexivity.
    + rewrite list_lookup_insert_ne by congruence.
      rewrite ?list_lookup_fmap. reflexivity.
  - intros g. destruct (decide (g = f)) as [-> | Hne].
    + destruct (page e) as [li cfg grp snt nts cns]. cbn [rebuild set_config
        set_avatarGroup currentConfig avatarGroup].
      rewrite field_of_set_field_eq.
      apply Forall_lookup. intros j b Hj.
      destruct (decide (j = i)) as [-> | Hji].
      * rewrite list_lookup_insert_eq in Hj
          by (rewrite length_map; eapply lookup_lt_Some; exact Ei).
        injection Hj as <-. cbn. symmetry. apply String.eqb_refl.
      * rewrite list_lookup_insert_ne in Hj by congruence.
        rewrite list_lookup_fmap in Hj.
        destruct (buttons (panel e) f !! j) as [bj|] eqn:Ej; [| discriminate].
        injection Hj as <-. cbn. symmetry. apply String.eqb_neq.
        intros Heq. apply Hji.
        pose proof (offered_NoDup f) as Hnd. rewrite <- (Hdata f) in Hnd.
        apply (NoDup_lookup _ j i (data bj) Hnd).
        -- rewrite list_lookup_fmap, Ej. reflexivity.
        -- rewrite list_lookup_fmap, Ei. cbn. congruence.
    + destruct (page e) as [li cfg grp snt nts cns]. cbn [rebuild set_config
        set_avatarGroup currentConfig avatarGroup].
      rewrite field_of_set_field_ne by exact Hne. apply Hactive.
  - destruct (page e) as [li cfg grp snt nts cns]. cbn in *.
    rewrite Hblush. destruct f; reflexivity.
Qed.

(** The invariant looks at the configuration, the avatar, the session flag,
    the panel, the handle and the auth section only. *)
Lemma invariant_ext (e e' : Editor) :
  currentConfig (page e') = currentConfig (page e) ->
  avatarGroup (page e') = avatarGroup (page e) ->
  isLoggedIn (page e') = isLoggedIn (page e) ->
  panel e' = panel e -> userHandle e' = userHandle e -> authView e' = authView e ->
  invariant e -> invariant e'.
Proof.
  intros Hc Hg Hl Hp Hu Ha (Hsync & Hcontrols & Hauth).
  unfold invariant, in_sync, controls_match, auth_matches in *.
  rewrite Hc, Hg, Hl, Hp, Hu, Ha. auto.
Qed.

Lemma notify_invariant (text : string) (e : Editor) :
  invariant e -> invariant (on_page (showNotification text) e).
Proof. apply invariant_ext; reflexivity. Qed.

Lemma onButtonClick_invariant (f : Field) (i : nat) (e : Editor) :
  invariant e -> invariant (onButtonClick f i e).
Proof.
  intros (Hsync & Hcontrols & Hauth).
  split; [| split; [by apply onButtonClick_controls |]].
  - unfold in_sync, onButtonClick.
    destruct (buttons (panel e) f !! i); [apply rebuild_in_sync | exact Hsync].
  - destruct e as [[li cfg grp snt nts cns] pn u a].
    unfold auth_matches, onButtonClick in *. cbn [panel] in *.
    destruct (buttons pn f !! i); exact Hauth.
Qed.

Lemma onBlushToggle_invariant (e : Editor) : invariant e -> invariant (onBlushToggle e).
Proof.
  destruct e as [[li cfg grp snt nts cns] pn u a].
  intros (Hsync & (Hdata & Hactive & Hblush) & Hauth).
  split; [| split; [split; [| split] |]].
  - apply rebuild_in_sync.
  - exact Hdata.
  - intros f. specialize (Hactive f). destruct f; exact Hactive.
  - cbn. destruct (blushChecked pn); reflexivity.
  - exact Hauth.
Qed.

Lemma updateUIFromConfig_data (config : AvatarConfig) (p : Panel) (f : Field) :
  map data (buttons (updateUIFromConfig config p) f) = map data (buttons p f).
Proof. cbn. rewrite map_map. reflexivity. Qed.

Lemma loadAvatar_invariant (agent : Agent) (e : Editor) :
  invariant e -> invariant (loadAvatar agent e).1.
Proof.
  intros (Hsync & (Hdata & Hactive & Hblush) & Hauth).
  unfold loadAvatar.
  destruct (load_cases agent (page e)) as [Hlogged Hcases].
  destruct (loadAvatarFromBluesky agent (page e)) as [p' result]. cbn [fst snd] in *.
  destruct (success result).
  - split; [| split; [split; [| split] |]]; cbn [page panel userHandle authView].
    + unfold in_sync. cbn [page]. rewrite Hcases, buildAvatar_unfold.
      apply children_of_with_children.
    + intros f. rewrite updateUIFromConfig_data. apply Hdata.
    + intros f. cbn. apply Forall_forall. intros b Hb.
      apply list_elem_of_fmap in Hb as (b0 & -> & _). reflexivity.
    + reflexivity.
    + unfold auth_matches in *. cbn [page userHandle authView]. rewrite Hlogged. exact Hauth.
  - destruct Hcases as [Hc Hg].
    apply (invariant_ext e); try reflexivity; try assumption.
    repeat split; assumption.
Qed.

Lemma login_invariant (answer : option JsError) (agent : Agent) (handle : string)
    (e : Editor) :
  invariant e -> invariant (login answer agent handle e).1.
Proof.
  destruct e as [[li cfg grp snt nts cns] pn u a].
  intros Hinv. unfold login. destruct answer as [err|].
  - cbn [fst]. revert Hinv. apply invariant_ext; reflexivity.
  - match goal with |- context [loadAvatar agent ?e2] =>
      assert (H2 : invariant e2); [| pose proof (loadAvatar_invariant agent e2 H2) as H3;
                                      destruct (loadAvatar agent e2); exact H3] end.
    destruct Hinv as (Hsync & Hcontrols & _).
    split; [exact Hsync | split; [exact Hcontrols | reflexivity]].
Qed.

Lemma logout_invariant (e : Editor) : invariant e -> invariant (logout e).
Proof.
  destruct e as [[li cfg grp snt nts cns] pn u a].
  intros (Hsync & Hcontrols & _).
  split; [exact Hsync | split; [exact Hcontrols | reflexivity]].
Qed.

Lemma save_invariant (agent : Agent) (e : Editor) :
  invariant e -> invariant (on_page (onSaveClick agent) e).
Proof.
  apply invariant_ext; try reflexivity; cbn [page on_page]; unfold onSaveClick;
    destruct (save_preserves agent (page e)) as (Hc & Hg & Hl);
    destruct (saveAvatarToBluesky agent (page e)) as [p' result]; cbn [fst] in *;
    destruct (negb (success result)); assumption.
Qed.

Lemma handle_invariant (ev : Event) (e : Editor) : invariant e -> invariant (handle ev e).
Proof.
  intros Hinv. unfold handle.
  destruct ev as [f i | | h pw answer agent | | agent | agent].
  - by apply onButtonClick_invariant.
  - by apply onBlushToggle_invariant.
  - destruct (authView e); [| exact Hinv].
    destruct (String.eqb h "" || String.eqb pw ""); [by apply notify_invariant |].
    pose proof (login_invariant answer agent h e Hinv) as H.
    destruct (login answer agent h e) as [e' result]. cbn [fst] in H.
    destruct (negb (success result)); [by apply notify_invariant | exact H].
  - destruct (authView e); [exact Hinv | by apply logout_invariant].
  - destruct (authView e); [exact Hinv | by apply save_invariant].
  - destruct (authView e); [exact Hinv |].
    pose proof (loadAvatar_invariant agent e Hinv) as H.
    destruct (loadAvatar agent e) as [e' result]. cbn [fst] in H.
    destruct (_ && _); [by apply notify_invariant | exact H].
Qed.

(** Every state the editor can reach satisfies the invariant. *)
Lemma reachable_invariant (events : list Event) : invariant (run events).
Proof.
  induction events as [|ev events IH] using rev_ind.
  - exact initial_invariant.
  - unfold run in *. rewrite foldl_app. cbn. by apply handle_invariant.
Qed.

(** X1. Whatever the user does (pressing style and colour buttons, ticking
    the blush box, logging in and out, saving, loading), the avatar under
    the avatar root is at every moment the one [buildAvatar] builds from
    the live configuration. *)
Theorem screen_follows_configuration (events : list Event) :
  children_of (avatarGroup (page (run events)))
  = children_of (buildAvatar (currentConfig (page (run events))) new_Group).
Proof.
  destruct (reachable_invariant events) as (Hsync & _ & _).
  rewrite buildAvatar_unfold. exact Hsync.
Qed.

Lemma filter_none {A} (P : A -> Prop) `{forall x, Decision (P x)} (l : list A) :
  Forall (fun x => ~ P x) l -> filter P l = [].
Proof.
  induction 1 as [|x l Hx _ IH]; [reflexivity |].
  rewrite filter_cons_False by exact Hx. exact IH.
Qed.

Lemma filter_eqb_NoDup (s : string) (l : list string) :
  NoDup l -> length (filter (fun d => String.eqb s d = true) l) <= 1.
Proof.
  induction 1 as [|d l Hd Hnd IH]; [cbn; lia |].
  rewrite filter_cons. destruct (decide (String.eqb s d = true)) as [Heq|]; [| exact IH].
  apply String.eqb_eq in Heq. subst d.
  assert (Hnil : filter (fun d => String.eqb s d = true) l = []).
  { apply filter_none. apply Forall_forall. intros x Hx Hsx.
    apply String.eqb_eq in Hsx. subst x. contradiction. }
  rewrite Hnil. cbn. lia.
Qed.

(** X2. At every moment the controls show the live configuration: each
    group holds the buttons of the markup, a button is highlighted exactly
    when its value is strictly equal to the value of its field, and the
    blush box is ticked exactly when [hasBlush] is truthy.  So at most one
    button of a group is highlighted, and none is when the field holds a
    value the group does not offer. *)
Theorem controls_follow_configuration (events : list Event) (f : Field) :
  let e := run events in
  let v := field_of f (currentConfig (page e)) in
  map data (buttons (panel e) f) = offered f
  /\ Forall (fun b => active b = (v === data b)) (buttons (panel e) f)
  /\ blushChecked (panel e) = truthy (hasBlush (currentConfig (page e)))
  /\ length (filter (fun b => active b = true) (buttons (panel e) f)) <= 1
  /\ (one_of (offered f) v = false ->
      filter (fun b => active b = true) (buttons (panel e) f) = []).
Proof.
  cbv zeta. destruct (reachable_invariant events) as (_ & (Hdata & Hactive & Hblush) & _).
  specialize (Hdata f). specialize (Hactive f).
  split; [exact Hdata |]. split; [exact Hactive |]. split; [exact Hblush |].
  set (bs := buttons (panel (run events)) f) in *.
  set (v := field_of f (currentConfig (page (run events)))) in *.
  assert (Hfilter : map data (filter (fun b => active b = true) bs)
                    = filter (fun d => (v === d) = true) (offered f)).
  { rewrite <- Hdata. clearbody bs. clear Hdata.
    induction bs as [|b bs IH]; [reflexivity |].
    apply Forall_cons_1 in Hactive as [Hb Hbs]. specialize (IH Hbs).
    cbn [map]. rewrite !filter_cons. rewrite <- Hb.
    destruct (decide (active b = true)); cbn [map]; by rewrite IH. }
  split.
  - rewrite <- (length_map data), Hfilter.
    destruct v as [| | | |s|]; try (rewrite filter_none; [cbn; lia |];
      apply Forall_forall; intros x _; cbn; discriminate).
    apply filter_eqb_NoDup, offered_NoDup.
  - intros Hnone. apply (f_equal length) in Hfilter. rewrite length_map in Hfilter.
    apply length_zero_iff_nil. rewrite Hfilter.
    rewrite filter_none; [reflexivity |].
    apply Forall_forall. intros d Hd Hvd.
    unfold one_of in Hnone. apply not_true_iff_false in Hnone. apply Hnone.
    apply existsb_exists. exists d. split; [by apply list_elem_of_In | exact Hvd].
Qed.

Lemma controls_follow_configuration_witness :
  let e := run [ClickLogin "alice.bsky.social" "app-password" None odd_store] in
  headShape (currentConfig (page e)) = VStr "triangle"
  /\ filter (fun b => active b = true) (buttons (panel e) FHeadShape) = [].
Proof.
  cbv zeta. split; [vm_compute; reflexivity |].
  destruct (controls_follow_configuration
              [ClickLogin "alice.bsky.social" "app-password" None odd_store] FHeadShape)
    as (_ & _ & _ & _ & H).
  apply H. vm_compute. reflexivity.
Defined.

(** X3. At every moment the auth section shows the session: the logged-in
    view, with the handle the user logged in with, exactly when the session
    flag is set, the login form otherwise.  The save and load buttons exist
    in the logged-in view only, so while the flag is down a save or a load
    cannot be started from the page. *)
Theorem auth_section_follows_session (events : list Event) (agent : Agent) :
  let e := run events in
  authView e = (if isLoggedIn (page e) then LoggedInView (userHandle e) else LoginForm)
  /\ (isLoggedIn (page e) = false ->
      handle (ClickSave agent) e = e /\ handle (ClickLoad agent) e = e
      /\ handle ClickLogout e = e).
Proof.
  cbv zeta. destruct (reachable_invariant events) as (_ & _ & Hauth).
  split; [exact Hauth |].
  intros Hout. unfold auth_matches in Hauth. rewrite Hout in Hauth.
  unfold handle. rewrite Hauth. repeat split; reflexivity.
Qed.

Lemma auth_section_follows_session_witness :
  handle (ClickSave offline) (run [ToggleBlush]) = run [ToggleBlush]
  /\ handle (ClickLoad offline) (run [ToggleBlush]) = run [ToggleBlush].
Proof.
  destruct (auth_section_follows_session [ToggleBlush] offline) as [_ H].
  destruct (H eq_refl) as (Hs & Hl & _). split; [exact Hs | exact Hl].
Defined.

(** ** The live configuration stays in its domain *)










(** ** Logging in and out *)

Lemma load_notifications (agent : Agent) (p : Page) :
  notifications (loadAvatarFromBluesky agent p).1
  = notifications p ++
    (if success (loadAvatarFromBluesky agent p).2 then ["Avatar loaded from Bluesky!"]
     else []).
Proof.
  unfold loadAvatarFromBluesky.
  destruct p as [li cfg grp snt nts cns]. cbn [isLoggedIn].
  destruct li; cbn [negb]; [| cbn; by rewrite app_nil_r].
  unfold load_try. run_try.
  destruct (session_did agent) as [did|]; [destruct (String.eqb did "") |];
    try (cbn; by rewrite app_nil_r).
  destruct (getRecord agent did AVATAR_COLLECTION AVATAR_RKEY) as [err|[record|[]]];
    cbn [fst snd send currentConfig avatarGroup isLoggedIn];
    try destruct (no_record_yet _); cbn; rewrite ?app_nil_r; reflexivity.
Qed.

(** X5. [login] succeeds exactly when [agent.login] resolves.  It then sets
    the session flag and the handle, shows the logged-in view and loads the
    saved avatar, but drops the outcome of that load: [login] reports
    success and no error is shown even when the load failed.  When
    [agent.login] rejects, the error's message (or "Login failed") is
    returned, nothing is requested from the store, and the session, the
    configuration, the avatar and the controls are as before. *)
Theorem login_outcome (answer : option JsError) (agent : Agent) (handle : string)
    (e : Editor) :
  let e' := (login answer agent handle e).1 in
  let result := (login answer agent handle e).2 in
  match answer with
  | None =>
      let loaded := loadAvatarFromBluesky agent (set_isLoggedIn true (page e)) in
      result = {| success := true; error := None |}
      /\ isLoggedIn (page e') = true
      /\ userHandle e' = handle
      /\ authView e' = LoggedInView handle
      /\ page e' = loaded.1
      /\ notifications (page e')
         = notifications (page e) ++
           (if success loaded.2 then ["Avatar loaded from Bluesky!"] else [])
  | Some err =>
      result = {| success := false; error := Some (message_or "Login failed" err) |}
      /\ isLoggedIn (page e') = isLoggedIn (page e)
      /\ sent (page e') = sent (page e)
      /\ notifications (page e') = notifications (page e)
      /\ currentConfig (page e') = currentConfig (page e)
      /\ avatarGroup (page e') = avatarGroup (page e)
      /\ panel e' = panel e /\ userHandle e' = userHandle e /\ authView e' = authView e
  end.
Proof.
  cbv zeta. destruct e as [[li cfg grp snt nts cns] pn u a].
  destruct answer as [err|]; [repeat split; reflexivity |].
  unfold login, loadAvatar, updateAuthUI, set_isLoggedIn.
  cbn [page panel userHandle authView isLoggedIn currentConfig avatarGroup sent
       notifications console].
  pose proof (load_cases agent (mkPage true cfg grp snt nts cns)) as [Hlogged _].
  pose proof (load_notifications agent (mkPage true cfg grp snt nts cns)) as Hnote.
  destruct (loadAvatarFromBluesky agent (mkPage true cfg grp snt nts cns)) as [p' r].
  cbn [fst snd page userHandle authView isLoggedIn notifications] in *.
  repeat split; first [reflexivity | exact Hlogged | exact Hnote].
Qed.

(** X6. [logout] lowers the session flag, forgets the handle and shows the
    login form; it keeps the live configuration and the avatar on screen.
    After it a save or a load returns "Not logged in" without sending
    anything to the store, whatever session the agent still holds. *)
Theorem logout_blocks_store (agent : Agent) (e : Editor) :
  let e' := logout e in
  isLoggedIn (page e') = false /\ userHandle e' = "" /\ authView e' = LoginForm
  /\ currentConfig (page e') = currentConfig (page e)
  /\ avatarGroup (page e') = avatarGroup (page e)
  /\ saveAvatarToBluesky agent (page e')
     = (page e', {| success := false; error := Some "Not logged in" |})
  /\ loadAvatarFromBluesky agent (page e')
     = (page e', {| success := false; error := Some "Not logged in" |}).
Proof.
  cbv zeta. destruct e as [[li cfg grp snt nts cns] pn u a]. repeat split; reflexivity.
Qed.

(** ** What the generators build *)

Ltac by_style_cases style :=
  repeat match goal with
         | |- context [style === ?s] => destruct (style === s)
         end.

Ltac exact_by_style s :=
  repeat match goal with
         | |- context [String.eqb s ?literal] =>
             destruct (String.eqb_spec s literal) as [-> | ?]; [vm_compute; reflexivity |]
         end;
  vm_compute; reflexivity.

(** X7. The colours of the meshes each generator builds, in order, for
    every style value (legal or not) and every colour.  The head is one
    mesh of the colour given.  Every hair mesh has the hair colour, with one
    exception: the tie of the ponytail, its third mesh, is always
    [#ff6b6b].  Every eyebrow mesh has the colour given, every nose mesh
    the head colour scaled by 0.9.  Every eye mesh has the eye colour,
    except the whites of 'wide' (before each pupil) and the whites and the
    shines of 'sparkle' (before and after each pupil), which are
    [0xffffff].  Every mouth mesh is [0x333333], except the tongue of
    'open', which is [0xff6b6b].  The two blush marks are [0xffaaaa]. *)
Theorem generator_colours (style c : value) :
  mesh_colors (createHead style c) = [ColorOf c]
  /\ mesh_colors (createHair style c)
     = (if style === "ponytail"
        then [ColorOf c; ColorOf c; ColorOf (VStr "#ff6b6b"); ColorOf c]
        else repeat (ColorOf c) (count_meshes (createHair style c)))
  /\ mesh_colors (createEyebrows style c)
     = repeat (ColorOf c) (count_meshes (createEyebrows style c))
  /\ mesh_colors (createNose style c)
     = repeat (ColorTimes (ColorOf c) 0.9%float) (count_meshes (createNose style c))
  /\ mesh_colors (createEyes style c)
     = (if style === "wide"
        then [ColorHex 0xffffff; ColorOf c; ColorHex 0xffffff; ColorOf c]
        else if style === "sparkle"
        then [ColorHex 0xffffff; ColorOf c; ColorHex 0xffffff;
              ColorHex 0xffffff; ColorOf c; ColorHex 0xffffff]
        else repeat (ColorOf c) (count_meshes (createEyes style c)))
  /\ mesh_colors (createMouth style)
     = (if style === "open"
        then [ColorHex 0x333333; ColorHex 0xff6b6b]
        else repeat (ColorHex 0x333333) (count_meshes (createMouth style)))
  /\ mesh_colors createBlush = [ColorHex 0xffaaaa; ColorHex 0xffaaaa].
Proof.
  split; [unfold createHead; by_style_cases style; reflexivity |].
  destruct style as [| |flag|n|s|r];
    try (repeat split; vm_compute; reflexivity).
  unfold createHair, createEyebrows, createNose, createEyes, createMouth, strict_eq_str.
  split; [exact_by_style s |]. split; [exact_by_style s |]. split; [exact_by_style s |].
  split; [exact_by_style s |]. split; [exact_by_style s |].
  reflexivity.
Qed.

Lemma hair_size (style c : value) : count_meshes (createHair style c) <= 8.
Proof. unfold createHair; by_style_cases style; vm_compute; lia. Qed.
Lemma eyebrows_size (style c : value) : count_meshes (createEyebrows style c) <= 2.
Proof. unfold createEyebrows; by_style_cases style; vm_compute; lia. Qed.
Lemma nose_size (style c : value) : count_meshes (createNose style c) <= 1.
Proof. unfold createNose; by_style_cases style; vm_compute; lia. Qed.
Lemma eyes_size (style c : value) : count_meshes (createEyes style c) <= 6.
Proof. unfold createEyes; by_style_cases style; vm_compute; lia. Qed.
Lemma mouth_size (style : value) : count_meshes (createMouth style) <= 2.
Proof. unfold createMouth; by_style_cases style; vm_compute; lia. Qed.
Lemma head_size (style c : value) : count_meshes (createHead style c) = 1.
Proof. unfold createHead; by_style_cases style; reflexivity. Qed.

(** X8. The avatar is small whatever the configuration holds, values
    outside the taxonomy included: after [buildAvatar] the avatar root has
    six or seven children and between 1 and 22 meshes in all. *)
Theorem avatar_size_bounded (config : AvatarConfig) (avatarGroup : Object3D) :
  let avatar := children_of (buildAvatar config avatarGroup) in
  6 <= length avatar <= 7 /\ 1 <= count_all avatar <= 22.
Proof.
  cbv zeta. rewrite buildAvatar_unfold, children_of_with_children. unfold parts.
  pose proof (head_size (headShape config) (headColor config)).
  pose proof (hair_size (hairStyle config) (hairColor config)).
  pose proof (nose_size (noseStyle config) (headColor config)).
  pose proof (eyes_size (eyeStyle config) (eyeColor config)).
  pose proof (eyebrows_size (eyebrowStyle config) (hairColor config)).
  pose proof (mouth_size (mouthStyle config)).
  unfold count_all.
  destruct (truthy (hasBlush config)); cbn [app length map list_sum foldr fold_right].
  - change (count_meshes createBlush) with 2. lia.
  - lia.
Qed.

(** X9. For every colour, the number of meshes each generator yields for
    each legal style, in the order of the taxonomy: hair 0, 2, 8, 4, 4 (the
    clip box of the bob is never attached); eyebrows 0, 2, 2, 2, 2; nose 0,
    1, 1, 1; eyes 2, 4, 2, 6; mouth 1, 1, 2, 2, 1.  So among the legal
    styles exactly 'none' gives an empty sub-assembly. *)
Theorem meshes_per_style (c : value) :
  map (fun s => count_meshes (createHair (VStr s) c)) hairStyles = [0; 2; 8; 4; 4]
  /\ map (fun s => count_meshes (createEyebrows (VStr s) c)) eyebrowStyles = [0; 2; 2; 2; 2]
  /\ map (fun s => count_meshes (createNose (VStr s) c)) noseStyles = [0; 1; 1; 1]
  /\ map (fun s => count_meshes (createEyes (VStr s) c)) eyeStyles = [2; 4; 2; 6]
  /\ map (fun s => count_meshes (createMouth (VStr s))) mouthStyles = [1; 1; 2; 2; 1]
  /\ map (fun s => count_meshes (createHead (VStr s) c)) headShapes = [1; 1; 1].
Proof. repeat split; vm_compute; reflexivity. Qed.

(** ** Saving *)

(** X10. A save reads the live state and never writes it: whatever the
    store answers, the configuration, the avatar hierarchy and the session
    flag are after the call what they were before it. *)
Theorem save_leaves_live_state (agent : Agent) (p : Page) :
  currentConfig (saveAvatarToBluesky agent p).1 = currentConfig p
  /\ avatarGroup (saveAvatarToBluesky agent p).1 = avatarGroup p
  /\ isLoggedIn (saveAvatarToBluesky agent p).1 = isLoggedIn p.
Proof. exact (save_preserves agent p). Qed.

(** X11. Under an authenticated session a save succeeds exactly when the
    update or, after a rejected update, the create is accepted.  On success
    it shows "Avatar saved to Bluesky!".  When both are rejected it returns
    the message of the error of the create (or "Save failed"): the error of
    the update is never reported; the save button then shows it as an
    error.  At most two requests are sent. *)
Theorem save_outcome (agent : Agent) (p : Page) (did : string) :
  isLoggedIn p = true -> session_did agent = Some did -> did <> "" ->
  let n := length (sent p) in
  let update := putRecord agent did AVATAR_COLLECTION AVATAR_RKEY
                  (toRecord (clock agent n) (currentConfig p)) in
  let creation := createRecord agent did AVATAR_COLLECTION AVATAR_RKEY
                    (toRecord (clock agent (S n)) (currentConfig p)) in
  let p' := (saveAvatarToBluesky agent p).1 in
  let result := (saveAvatarToBluesky agent p).2 in
  result = match update, creation with
           | Some _, Some err =>
               {| success := false; error := Some (message_or "Save failed" err) |}
           | _, _ => {| success := true; error := None |}
           end
  /\ notifications p'
     = notifications p ++ (if success result then ["Avatar saved to Bluesky!"] else [])
  /\ notifications (onSaveClick agent p)
     = notifications p ++
       (if success result then ["Avatar saved to Bluesky!"] else [error_text result])
  /\ length (sent p') <= length (sent p) + 2.
Proof.
  intros Hin Hdid Hne. cbv zeta.
  unfold onSaveClick, saveAvatarToBluesky, save_try. rewrite Hin. cbn [negb].
  run_try. rewrite Hdid.
  destruct (String.eqb did "") eqn:E; [apply String.eqb_eq in E; contradiction |].
  destruct p as [li cfg grp snt nts cns]. cbn [sent currentConfig send length notifications].
  destruct (putRecord agent did AVATAR_COLLECTION AVATAR_RKEY _) as [err|].
  - cbn [sent send currentConfig]. rewrite length_app, Nat.add_1_r.
    destruct (createRecord agent did _ _ _); cbn; rewrite ?length_app; cbn;
      repeat split; first [reflexivity | lia | by rewrite app_nil_r].
  - cbn. rewrite ?length_app. cbn. repeat split; first [reflexivity | lia].
Qed.

Lemma save_outcome_witness :
  (saveAvatarToBluesky offline fresh_page).2
  = {| success := false; error := Some "Failed to fetch" |}
  /\ notifications (onSaveClick offline fresh_page) = ["Error: Failed to fetch"].
Proof.
  destruct (save_outcome offline fresh_page "did:plc:alice" eq_refl eq_refl)
    as (Hresult & _ & Hshown & _); [discriminate |].
  split; [exact Hresult | exact Hshown].
Defined.

Lemma decode_encoded (createdAt : string) (c : AvatarConfig) :
  in_domain c = true -> fromRecord (toRecord createdAt c) = c.
Proof.
  intros H. unfold in_domain in H. split_andb H.
  apply fromRecord_toRecord.
  - unfold string_fields. repeat constructor; cbn;
      first [ by apply hex_color_truthy
            | eapply one_of_truthy; [| eassumption];
              repeat constructor; discriminate ].
  - destruct (hasBlush c); try discriminate; reflexivity.
Qed.

(** X12. What a save writes, a load reads back: if the live configuration
    is in its domain and the store later returns, for the avatar slot, a
    record that the save sent (in its update or in its create), then a load
    succeeds, makes that configuration the live one again and rebuilds the
    avatar from it. *)
Theorem load_restores_what_save_sent (saver loader : Agent) (edited later : Page)
    (did : string) (request : Request) (record : gmap string value) :
  isLoggedIn edited = true -> session_did saver = Some did -> did <> "" ->
  in_domain (currentConfig edited) = true ->
  request ∈ drop (length (sent edited)) (sent (saveAvatarToBluesky saver edited).1) ->
  written request = Some record ->
  isLoggedIn later = true -> session_did loader = Some did ->
  getRecord loader did AVATAR_COLLECTION AVATAR_RKEY = inr (FetchedObject record) ->
  let loaded := loadAvatarFromBluesky loader later in
  loaded.2 = {| success := true; error := None |}
  /\ currentConfig loaded.1 = currentConfig edited
  /\ avatarGroup loaded.1 = buildAvatar (currentConfig edited) (avatarGroup later).
Proof.
  intros Hin Hdid Hne Hdom Hreq Hwritten Hin2 Hdid2 Hget. cbv zeta.
  assert (Hrecord : exists t, record = toRecord t (currentConfig edited)).
  { rewrite (save_requests saver edited did Hin Hdid Hne) in Hreq.
    rewrite drop_app_length in Hreq.
    apply elem_of_cons in Hreq as [-> | Hreq].
    - injection Hwritten as <-. eauto.
    - destruct (putRecord saver did _ _ _); [| by apply elem_of_nil in Hreq].
      apply list_elem_of_singleton in Hreq as ->. injection Hwritten as <-. eauto. }
  destruct Hrecord as [t ->].
  unfold loadAvatarFromBluesky, load_try. rewrite Hin2. cbn [negb]. run_try.
  rewrite Hdid2.
  destruct (String.eqb did "") eqn:E; [apply String.eqb_eq in E; contradiction |].
  rewrite Hget. destruct later as [li cfg grp snt nts cns]. cbn.
  rewrite (decode_encoded t (currentConfig edited) Hdom).
  repeat split; reflexivity.
Qed.

Lemma load_restores_what_save_sent_witness :
  currentConfig
    (loadAvatarFromBluesky (returning (toRecord "2024-01-01T00:00:00.000Z" bald))
                           fresh_page).1
  = bald.
Proof.
  refine (proj1 (proj2 (load_restores_what_save_sent accepting
            (returning (toRecord "2024-01-01T00:00:00.000Z" bald))
            (set_config bald fresh_page) fresh_page "did:plc:alice"
            (PutRecord "did:plc:alice" AVATAR_COLLECTION AVATAR_RKEY
               (toRecord "2024-01-01T00:00:00.000Z" bald))
            (toRecord "2024-01-01T00:00:00.000Z" bald)
            eq_refl eq_refl _ eq_refl _ eq_refl eq_refl eq_refl eq_refl))).
  - discriminate.
  - rewrite (save_requests accepting (set_config bald fresh_page) "did:plc:alice"
               eq_refl eq_refl); [| discriminate].
    cbn [sent set_config fresh_page length drop app]. apply list_elem_of_here.
Defined.

(** * Properties of the world front end *)

(** ** Post colours *)

Lemma ToInt32_range (z : Z) : (- 2 ^ 31 <= World.ToInt32 z < 2 ^ 31)%Z.
Proof.
  unfold World.ToInt32. cbv zeta.
  pose proof (Z.mod_pos_bound z (2 ^ 32) eq_refl) as Hm.
  destruct (2 ^ 31 <=? z mod 2 ^ 32)%Z eqn:E; [apply Z.leb_le in E | apply Z.leb_gt in E]; lia.
Qed.

Lemma hash_grows_slowly (str : list Z) (acc : Z) :
  Forall (fun c => 0 <= c < 2 ^ 16)%Z str ->
  (Z.abs (foldl World.hash_step acc str)
   <= Z.abs acc + Z.of_nat (length str) * (2 ^ 31 + 2 ^ 16))%Z.
Proof.
  intros Hstr. revert acc. induction Hstr as [|c str Hc _ IH]; intros acc.
  - cbn. lia.
  - cbn [foldl length]. specialize (IH (World.hash_step acc c)).
    assert (Z.abs (World.hash_step acc c) <= Z.abs acc + (2 ^ 31 + 2 ^ 16))%Z.
    { unfold World.hash_step, World.shift_left_5.
      pose proof (ToInt32_range (World.ToInt32 acc * 2 ^ 5)). lia. }
    lia.
Qed.

(** X13. [stringToCyberColor] picks one of the eight colours for every
    string: the index it computes is never outside the array.  And as long
    as the string has at most 2^20 UTF-16 code units the hash stays below
    2^53 in absolute value, so that the number arithmetic of the loop is
    exact, although the hash does leave the 32-bit range. *)
Theorem stringToCyberColor_in_palette (str : list Z) :
  (exists color, World.stringToCyberColor str = Some color /\ color ∈ World.cyberColors)
  /\ (Forall (fun c => 0 <= c < 2 ^ 16)%Z str -> (Z.of_nat (length str) <= 2 ^ 20)%Z ->
      (Z.abs (World.hash_of str) < 2 ^ 53)%Z).
Proof.
  split.
  - unfold World.stringToCyberColor.
    assert (Hidx : (Z.to_nat (Z.abs (World.hash_of str)
                              mod Z.of_nat (length World.cyberColors))
                    < length World.cyberColors)%nat).
    { cbn [World.cyberColors length].
      pose proof (Z.mod_pos_bound (Z.abs (World.hash_of str)) 8 eq_refl). lia. }
    apply lookup_lt_is_Some in Hidx as [color Hcolor].
    exists color. split; [exact Hcolor |].
    eapply list_elem_of_lookup_2. exact Hcolor.
  - intros Hstr Hlen.
    pose proof (hash_grows_slowly str 0 Hstr) as H. unfold World.hash_of.
    cbn [Z.abs] in H. nia.
Qed.

Lemma stringToCyberColor_in_palette_witness :
  (Z.abs (World.hash_of (World.code_units "alice.bsky.social")) < 2 ^ 53)%Z
  /\ (2 ^ 31 <= World.hash_of (World.code_units "alice.bsky.social"))%Z
  /\ World.stringToCyberColor (World.code_units "alice.bsky.social") = Some "#ff0088".
Proof.
  destruct (stringToCyberColor_in_palette (World.code_units "alice.bsky.social"))
    as (_ & Hexact).
  split; [| split; [vm_compute; discriminate | vm_compute; reflexivity]].
  apply Hexact; clear Hexact.
  - apply Forall_forall. intros c Hc. vm_compute in Hc.
    repeat (apply elem_of_cons in Hc as [-> | Hc]; [lia |]).
    apply elem_of_nil in Hc. destruct Hc.
  - vm_compute. discriminate.
Defined.

(** ** The avatar of the world *)

Lemma world_avatar_children (config : AvatarConfig) (p q : Object3D) :
  children_of (Bskyplace.buildPlayerAvatar config p)
  = children_of (Bskyplace.buildPlayerAvatar config q).
Proof.
  unfold Bskyplace.buildPlayerAvatar.
  rewrite !children_of_add, !children_of_clear. reflexivity.
Qed.

Lemma world_avatar_single (config : AvatarConfig) (p : Object3D) :
  length (children_of (Bskyplace.buildPlayerAvatar config p)) = 1%nat.
Proof.
  unfold Bskyplace.buildPlayerAvatar.
  rewrite !children_of_add, !children_of_clear. reflexivity.
Qed.

Lemma world_load_cases (agent : Agent) (s : World.Session) :
  let s' := World.loadAvatarFromBluesky agent s in
  World.isLoggedIn s' = World.isLoggedIn s
  /\ ((World.playerAvatar s' = World.playerAvatar s
       /\ World.player s' = World.player s
       /\ World.notifications s' = World.notifications s)
      \/ (exists record,
            World.playerAvatar s' = Bskyplace.fromRecord record
            /\ World.player s'
               = Bskyplace.buildPlayerAvatar (Bskyplace.fromRecord record) (World.player s)
            /\ World.notifications s'
               = World.notifications s ++ ["Loaded your bskatar!"]
            /\ World.console s' = World.console s)).
Proof.
  cbv zeta. unfold World.loadAvatarFromBluesky.
  destruct (negb (World.isLoggedIn s)); [auto |].
  destruct (session_did agent) as [repo|]; [| auto].
  destruct (String.eqb repo ""); [auto |].
  destruct (getRecord agent repo "xyz.bskatar.avatar" "self") as [err | [record | v]];
    cbn; [auto | eauto 10 |].
  destruct v; cbn; eauto 10.
Qed.

Lemma world_load_in_step (agent : Agent) (s : World.Session) :
  World.in_step s -> World.in_step (World.loadAvatarFromBluesky agent s).
Proof.
  unfold World.in_step. intros Hs.
  destruct (world_load_cases agent s) as (_ & [(-> & -> & _) | (record & -> & -> & _)]).
  - exact Hs.
  - apply world_avatar_children.
Qed.

(** X14. What a load in the world does is decided by the session and by
    the answer of [getRecord] for the avatar slot of the session's DID.
    When the user is logged in, the session has a DID and the store answers
    with a value other than [undefined] and [null], then [playerAvatar]
    becomes the decoding of that very value, the player group is rebuilt for
    it and the one notification 'Loaded your bskatar!' is shown.  In every
    other case (not logged in, no DID, a rejected request, or an answer
    without a value) the avatar, the player group and the notifications are
    as before: the world shows no error; and without a session nothing is
    requested.  The login flag is never touched. *)
Theorem world_load_outcome (agent : Agent) (s : World.Session) :
  let s' := World.loadAvatarFromBluesky agent s in
  World.isLoggedIn s' = World.isLoggedIn s
  /\ (forall repo fetched,
        World.isLoggedIn s = true -> session_did agent = Some repo -> repo <> "" ->
        getRecord agent repo "xyz.bskatar.avatar" "self" = inr fetched ->
        fetched <> FetchedOther VUndefined -> fetched <> FetchedOther VNull ->
        World.playerAvatar s' = Bskyplace.fromRecord (properties fetched)
        /\ World.player s'
           = Bskyplace.buildPlayerAvatar (Bskyplace.fromRecord (properties fetched))
                                         (World.player s)
        /\ World.notifications s' = World.notifications s ++ ["Loaded your bskatar!"]
        /\ World.console s' = World.console s
        /\ World.sent s' = World.sent s ++ [GetRecord repo "xyz.bskatar.avatar" "self"])
  /\ (forall repo,
        World.isLoggedIn s = true -> session_did agent = Some repo -> repo <> "" ->
        (exists err, getRecord agent repo "xyz.bskatar.avatar" "self" = inl err)
        \/ getRecord agent repo "xyz.bskatar.avatar" "self" = inr (FetchedOther VUndefined)
        \/ getRecord agent repo "xyz.bskatar.avatar" "self" = inr (FetchedOther VNull) ->
        World.playerAvatar s' = World.playerAvatar s
        /\ World.player s' = World.player s
        /\ World.notifications s' = World.notifications s
        /\ World.console s' = World.console s ++ ["No bskatar found, using default avatar"]
        /\ World.sent s' = World.sent s ++ [GetRecord repo "xyz.bskatar.avatar" "self"])
  /\ (World.isLoggedIn s = false \/ session_did agent = None \/ session_did agent = Some "" ->
      s' = s).
Proof.
  cbv zeta. split; [exact (proj1 (world_load_cases agent s)) |].
  unfold World.loadAvatarFromBluesky. split; [| split].
  - intros repo fetched -> -> Hrepo -> Hundefined Hnull. cbn [negb].
    apply String.eqb_neq in Hrepo. rewrite Hrepo.
    destruct fetched as [record | v]; [repeat split; reflexivity |].
    destruct v; try (repeat split; reflexivity); congruence.
  - intros repo -> -> Hrepo Hfail. cbn [negb].
    apply String.eqb_neq in Hrepo. rewrite Hrepo.
    destruct Hfail as [[err ->] | [-> | ->]]; repeat split; reflexivity.
  - intros [-> | [-> | ->]]; [reflexivity | |].
    + destruct (negb (World.isLoggedIn s)); reflexivity.
    + destruct (negb (World.isLoggedIn s)); reflexivity.
Qed.

Lemma world_load_outcome_witness :
  headShape (World.playerAvatar
               (World.loadAvatarFromBluesky odd_store World.logged_in_session))
  = VStr "triangle"
  /\ World.notifications (World.loadAvatarFromBluesky odd_store World.logged_in_session)
     = ["Loaded your bskatar!"]
  /\ World.playerAvatar (World.loadAvatarFromBluesky offline World.logged_in_session)
     = defaultConfig
  /\ World.notifications (World.loadAvatarFromBluesky offline World.logged_in_session) = []
  /\ World.loadAvatarFromBluesky odd_store World.initial_session = World.initial_session.
Proof.
  destruct (world_load_outcome odd_store World.logged_in_session)
    as (_ & Hloaded & _ & _).
  destruct (Hloaded "did:plc:alice" _ eq_refl eq_refl ltac:(discriminate) eq_refl
              ltac:(discriminate) ltac:(discriminate)) as (Havatar & _ & Hnote & _).
  destruct (world_load_outcome offline World.logged_in_session)
    as (_ & _ & Hfailed & _).
  destruct (Hfailed "did:plc:alice" eq_refl eq_refl ltac:(discriminate)
              (or_introl (ex_intro _ _ eq_refl))) as (Hkept & _ & Hquiet & _).
  destruct (world_load_outcome odd_store World.initial_session) as (_ & _ & _ & Hout).
  split; [rewrite Havatar; reflexivity |].
  split; [exact Hnote |]. split; [exact Hkept |]. split; [exact Hquiet |].
  apply Hout. left. reflexivity.
Defined.

(** X15. Whatever the store answers to any number of loads, the player
    group holds exactly one child, and it is the avatar built for the current
    [playerAvatar]: loads never pile avatars up and never leave the avatar of
    an earlier configuration on screen. *)
Theorem world_player_follows_avatar (agents : list Agent) (s : World.Session) :
  World.in_step s ->
  let s' := foldl (fun s agent => World.loadAvatarFromBluesky agent s) s agents in
  World.in_step s' /\ length (children_of (World.player s')) = 1%nat.
Proof.
  intros Hs. cbv zeta.
  assert (Hfinal : World.in_step
            (foldl (fun s agent => World.loadAvatarFromBluesky agent s) s agents)).
  { revert s Hs. induction agents as [|agent rest IH]; intros s Hs; [exact Hs |].
    cbn [foldl]. apply IH, world_load_in_step, Hs. }
  split; [exact Hfinal |].
  rewrite Hfinal. apply world_avatar_single.
Qed.

Lemma world_player_follows_avatar_witness :
  let s' := foldl (fun s agent => World.loadAvatarFromBluesky agent s)
                  World.logged_in_session [odd_store; offline] in
  World.in_step s' /\ length (children_of (World.player s')) = 1%nat.
Proof.
  apply (world_player_follows_avatar [odd_store; offline] World.logged_in_session).
  unfold World.in_step, World.logged_in_session, World.initial_session.
  cbn [World.player World.playerAvatar]. apply world_avatar_children.
Defined.

(** ** The two worlds *)

Lemma switchWorld_consistent (theme : World.WorldTheme) (s : World.Scene) :
  World.consistent s -> World.consistent (World.switchWorld theme s).
Proof.
  intros Hs. unfold World.switchWorld.
  destruct (decide (World.currentWorld s = theme)); [exact Hs |].
  destruct theme; cbn; auto.
Qed.

(** X16. [switchWorld] and the teleporter check keep the scene consistent
    with [currentWorld]: the group and the portal of that world are the
    visible ones, the others are hidden, and the background is that world's.
    [switchWorld] always leaves the requested world current. *)
Theorem worlds_stay_consistent (theme : World.WorldTheme) (s : World.Scene) :
  World.consistent s ->
  World.consistent (World.switchWorld theme s)
  /\ World.currentWorld (World.switchWorld theme s) = theme
  /\ World.consistent (World.teleport s).
Proof.
  intros Hs. split; [exact (switchWorld_consistent theme s Hs) |]. split.
  - unfold World.switchWorld.
    destruct (decide (World.currentWorld s = theme)) as [E|]; [exact E |].
    destruct theme; reflexivity.
  - unfold World.teleport.
    match goal with |- context [PrimFloat.ltb ?a ?b] => destruct (PrimFloat.ltb a b) end;
      [apply switchWorld_consistent, Hs | exact Hs].
Qed.

Lemma worlds_stay_consistent_witness :
  World.consistent (World.switchWorld World.fantasy World.initial_scene)
  /\ World.currentWorld (World.switchWorld World.fantasy World.initial_scene) = World.fantasy
  /\ World.consistent (World.teleport World.initial_scene).
Proof.
  apply (worlds_stay_consistent World.fantasy World.initial_scene).
  cbn. auto.
Defined.

(** X17. The teleporter does not bounce: a teleport puts the player at
    (10, 0, 0), out of reach of the portal of the new world, so the check of
    the next frame changes nothing; and it always changes the world when it
    fires. *)
Theorem teleporter_does_not_bounce (s : World.Scene) :
  World.teleport (World.teleport s) = World.teleport s
  /\ (World.teleport s = s
      \/ (World.currentWorld (World.teleport s) <> World.currentWorld s
          /\ World.player_position (World.teleport s) = vec3 10 0 0)).
Proof.
  unfold World.teleport at 2 3 4 5 6.
  match goal with |- context [PrimFloat.ltb ?a ?b] => destruct (PrimFloat.ltb a b) eqn:Hnear end.
  - destruct s as [w bg fg cg fgv tp fp pos sh]. cbn [World.currentWorld] in *.
    destruct w; cbn; (split; [reflexivity | right; split; [discriminate | reflexivity]]).
  - split; [| left; reflexivity].
    unfold World.teleport. rewrite Hnear. reflexivity.
Qed.

(** ** Keyboard and wheel *)

(** X18. Key repeat is harmless: a second [keydown] of the same key changes
    nothing, whatever the key.  In particular Space in the air does not
    jump again, and after Space the player is never on the ground. *)
Theorem key_repeat_is_harmless (code : string) (c : World.Controls) :
  World.keydown code (World.keydown code c) = World.keydown code c
  /\ World.isGrounded (World.keydown "Space" c) = false.
Proof.
  split.
  - unfold World.keydown.
    repeat match goal with
           | |- context [World.code_is code ?labels] =>
               destruct (World.code_is code labels) eqn:?; [reflexivity |]
           end.
    destruct (World.code_is code ["Space"]) eqn:Hspace.
    { destruct (World.isGrounded c) eqn:Hground; cbn; [reflexivity | rewrite Hground; reflexivity]. }
    destruct (World.code_is code ["KeyE"]) eqn:HkeyE; [| reflexivity].
    destruct (World.closestPost c) as [post|] eqn:Hpost; cbn; [reflexivity |].
    rewrite Hpost. reflexivity.
  - destruct c as [k v g p w]. destruct g; reflexivity.
Qed.

Lemma code_is_elem (code : string) (labels : list string) :
  code ∈ labels -> World.code_is code labels = true.
Proof.
  intros Hin. unfold World.code_is. apply existsb_exists.
  exists code. split; [by apply list_elem_of_In | apply String.eqb_refl].
Qed.

(** X19. A movement flag does not count the keys held for it: with two keys
    of one direction (or both Shift keys) held, releasing either clears the
    flag, and the other key, still held, no longer moves the player. *)
Theorem release_clears_shared_flag (labels : list string) (flag : World.Keys -> bool)
    (held released : string) (c : World.Controls) :
  (labels, flag) ∈ World.bindings -> held ∈ labels -> released ∈ labels ->
  flag (World.keys (World.keydown held c)) = true
  /\ flag (World.keys (World.keyup released (World.keydown held c))) = false.
Proof.
  intros Hbound Hheld Hreleased.
  unfold World.bindings in Hbound.
  repeat (apply elem_of_cons in Hbound as [Hbound | Hbound];
          [injection Hbound as -> -> |]);
    try (by apply elem_of_nil in Hbound);
    repeat (apply elem_of_cons in Hheld as [-> | Hheld]);
    try (by apply elem_of_nil in Hheld);
    repeat (apply elem_of_cons in Hreleased as [-> | Hreleased]);
    try (by apply elem_of_nil in Hreleased);
    split; reflexivity.
Qed.

Lemma release_clears_shared_flag_witness :
  World.forward (World.keys (World.keydown "ArrowUp" World.initial_controls)) = true
  /\ World.forward (World.keys (World.keyup "KeyW"
                                  (World.keydown "ArrowUp" World.initial_controls))) = false.
Proof.
  apply (release_clears_shared_flag ["KeyW"; "ArrowUp"] World.forward "ArrowUp" "KeyW"
                                    World.initial_controls).
  - apply elem_of_cons. left. reflexivity.
  - apply elem_of_cons. right. apply elem_of_cons. left. reflexivity.
  - apply elem_of_cons. left. reflexivity.
Defined.

(** X20. Opposite keys cancel: the frame loop moves and turns the player
    exactly when forward and backward differ or left and right differ;
    Shift and Space have no part in it. *)
Theorem moving_iff_unbalanced (k : World.Keys) :
  World.moving k = true
  <-> (World.forward k <> World.backward k \/ World.left k <> World.right k).
Proof.
  destruct k as [[] [] [] [] s j]; vm_compute; split; intros H;
    first [ discriminate H | reflexivity | by left | by right
          | (destruct H as [H | H]; by destruct H) ].
Qed.

Lemma not_nan (x : float) : PrimFloat.is_nan x = false -> Prim2SF x <> S754_nan.
Proof.
  unfold PrimFloat.is_nan. rewrite FloatAxioms.eqb_spec.
  intros H E. rewrite E in H. discriminate.
Qed.

Lemma ltb_leb (x y : float) : PrimFloat.ltb x y = true -> PrimFloat.leb x y = true.
Proof.
  rewrite FloatAxioms.ltb_spec, FloatAxioms.leb_spec. unfold SFltb, SFleb.
  destruct (SFcompare _ _) as [[]|]; congruence.
Qed.

Lemma SFcompare_antisym (a b : spec_float) :
  a <> S754_nan -> b <> S754_nan ->
  exists c, SFcompare a b = Some c /\ SFcompare b a = Some (CompOpp c).
Proof.
  intros Ha Hb.
  destruct a as [sa|sa| |sa ma ea], b as [sb|sb| |sb mb eb]; try congruence;
    cbn [SFcompare]; eexists; (split; [reflexivity |]); f_equal.
  all: try (by destruct sa); try (by destruct sb); try (by destruct sa, sb).
  rewrite (Z.compare_antisym ea eb), (ZC4 mb ma).
  destruct sa, sb, (ea ?= eb)%Z; cbn; try reflexivity.
Qed.

Lemma not_ltb_leb (x y : float) :
  PrimFloat.is_nan x = false -> PrimFloat.is_nan y = false ->
  PrimFloat.ltb x y = false -> PrimFloat.leb y x = true.
Proof.
  intros Hx%not_nan Hy%not_nan.
  rewrite FloatAxioms.ltb_spec, FloatAxioms.leb_spec. unfold SFltb, SFleb.
  destruct (SFcompare_antisym _ _ Hx Hy) as (c & -> & ->).
  destruct c; cbn; congruence.
Qed.

Lemma Math_min_MAX_ZOOM (x : float) :
  PrimFloat.is_nan x = false ->
  PrimFloat.is_nan (World.Math_min World.MAX_ZOOM x) = false
  /\ PrimFloat.leb (World.Math_min World.MAX_ZOOM x) World.MAX_ZOOM = true.
Proof.
  intros Hx. unfold World.Math_min. rewrite Hx.
  change (PrimFloat.is_nan World.MAX_ZOOM) with false.
  change (PrimFloat.is_zero World.MAX_ZOOM) with false.
  cbn [orb andb].
  destruct (PrimFloat.ltb World.MAX_ZOOM x) eqn:Habove; [split; reflexivity |].
  assert (Hle : PrimFloat.leb x World.MAX_ZOOM = true)
    by (apply not_ltb_leb; [reflexivity | exact Hx | exact Habove]).
  destruct (PrimFloat.ltb x World.MAX_ZOOM); split; assumption.
Qed.

(** X21. The wheel never zooms out of range: unless the sum itself is not
    a number, the new [targetFrustumSize] is between MIN_ZOOM and MAX_ZOOM,
    whatever the wheel delta and the old value (infinite ones included). *)
Theorem zoom_stays_in_range (deltaY targetFrustumSize : float) :
  PrimFloat.is_nan (targetFrustumSize + deltaY * 0.02)%float = false ->
  PrimFloat.leb World.MIN_ZOOM (World.onWheel deltaY targetFrustumSize) = true
  /\ PrimFloat.leb (World.onWheel deltaY targetFrustumSize) World.MAX_ZOOM = true.
Proof.
  intros Hsum. unfold World.onWheel.
  destruct (Math_min_MAX_ZOOM _ Hsum) as [Hnan Hle].
  set (m := World.Math_min World.MAX_ZOOM _) in *.
  unfold World.Math_max. rewrite Hnan.
  change (PrimFloat.is_nan World.MIN_ZOOM) with false.
  change (PrimFloat.is_zero World.MIN_ZOOM) with false.
  cbn [orb andb].
  destruct (PrimFloat.ltb World.MIN_ZOOM m) eqn:Hbelow.
  - split; [apply ltb_leb, Hbelow | exact Hle].
  - destruct (PrimFloat.ltb m World.MIN_ZOOM); split; reflexivity.
Qed.

Lemma zoom_stays_in_range_witness :
  World.onWheel 5000 20 = World.MAX_ZOOM
  /\ World.onWheel (-5000) 20 = World.MIN_ZOOM
  /\ PrimFloat.leb World.MIN_ZOOM (World.onWheel neg_infinity 20) = true
  /\ PrimFloat.leb (World.onWheel infinity 20) World.MAX_ZOOM = true.
Proof.
  split; [reflexivity |]. split; [reflexivity |]. split.
  - apply (zoom_stays_in_range neg_infinity 20). reflexivity.
  - apply (zoom_stays_in_range infinity 20). reflexivity.
Defined.

(** ** The post in reach *)

Lemma SFltb_trans (a b c : spec_float) :
  SFltb a b = true -> SFltb b c = true -> SFltb a c = true.
Proof.
  unfold SFltb.
  destruct a as [sa|sa| |sa ma ea], b as [sb|sb| |sb mb eb], c as [sc|sc| |sc mc ec];
    cbn [SFcompare]; try discriminate;
    try (destruct sa; try discriminate); try (destruct sb; try discriminate);
    try (destruct sc; try discriminate); try reflexivity.
  all: change (PosDef.Pos.compare_cont Eq) with Pos.compare.
  all: repeat match goal with
         | |- context [(?x ?= ?y)%Z] => destruct (Z.compare_spec x y)
         | |- context [(?x ?= ?y)%positive] => destruct (Pos.compare_spec x y)
         end; cbn [CompOpp]; try discriminate; try reflexivity; try lia.
Qed.

Lemma ltb_trans (a b c : float) :
  PrimFloat.ltb a b = true -> PrimFloat.ltb b c = true -> PrimFloat.ltb a c = true.
Proof. rewrite !FloatAxioms.ltb_spec. apply SFltb_trans. Qed.

Lemma ltb_irrefl (a : float) : PrimFloat.ltb a a = false.
Proof.
  rewrite FloatAxioms.ltb_spec. unfold SFltb.
  destruct (Prim2SF a) as [sa|sa| |sa ma ea]; cbn [SFcompare]; try reflexivity.
  - destruct sa; reflexivity.
  - change (PosDef.Pos.compare_cont Eq) with Pos.compare.
    rewrite Z.compare_refl, Pos.compare_refl. destruct sa; reflexivity.
Qed.

Lemma not_ltb_trans (a b c : float) :
  PrimFloat.ltb a c = false -> PrimFloat.ltb b c = true -> PrimFloat.ltb a b = false.
Proof.
  intros Hac Hbc. destruct (PrimFloat.ltb a b) eqn:Hab; [| reflexivity].
  rewrite (ltb_trans a b c Hab Hbc) in Hac. discriminate.
Qed.

Lemma none_nearer_snoc (player_position : Vector3) (posts : list World.ScenePost)
  (r : World.ScenePost) (bound : float) :
  (forall q dq, q ∈ posts -> World.reach player_position q = Some dq ->
                PrimFloat.ltb dq bound = false) ->
  (forall dq, World.reach player_position r = Some dq -> PrimFloat.ltb dq bound = false) ->
  forall q dq, q ∈ posts ++ [r] -> World.reach player_position q = Some dq ->
               PrimFloat.ltb dq bound = false.
Proof.
  intros Hold Hr q dq Hq. apply elem_of_app in Hq as [Hq | Hq]; [by apply Hold |].
  apply list_elem_of_singleton in Hq as ->. apply Hr.
Qed.

(** What the loop has established after the posts seen so far. *)
Lemma closest_invariant (player_position : Vector3) (posts : list World.ScenePost) :
  match foldl (World.closest_step player_position) (infinity, None) posts with
  | (minDist, None) =>
      minDist = infinity
      /\ forall q dq, q ∈ posts -> World.reach player_position q = Some dq ->
                      PrimFloat.ltb dq World.INTERACT_DISTANCE = false
  | (minDist, Some p) =>
      p ∈ posts
      /\ World.reach player_position p = Some minDist
      /\ PrimFloat.ltb minDist World.INTERACT_DISTANCE = true
      /\ forall q dq, q ∈ posts -> World.reach player_position q = Some dq ->
                      PrimFloat.ltb dq minDist = false
  end.
Proof.
  induction posts as [|r posts IH] using rev_ind.
  - cbn. split; [reflexivity |]. intros q dq Hq. by apply elem_of_nil in Hq.
  - rewrite foldl_app. cbn [foldl].
    destruct (foldl _ _ posts) as [minDist closest].
    unfold World.closest_step at 1. cbn [fst].
    destruct (World.mesh_position r) as [mesh|] eqn:Hmesh.
    + set (dist := World.post_distance player_position mesh).
      assert (Hr : World.reach player_position r = Some dist)
        by (unfold World.reach; rewrite Hmesh; reflexivity).
      destruct (PrimFloat.ltb dist World.INTERACT_DISTANCE) eqn:Hnear; cbn [andb].
      * destruct (PrimFloat.ltb dist minDist) eqn:Hnearer.
        -- split; [apply elem_of_app; right; apply list_elem_of_singleton; reflexivity |].
           split; [exact Hr |]. split; [exact Hnear |].
           apply none_nearer_snoc.
           ++ intros q dq Hq Hdq. destruct closest as [p|].
              ** destruct IH as (_ & _ & _ & Hmin).
                 apply (not_ltb_trans dq dist minDist); [by eapply Hmin | exact Hnearer].
              ** destruct IH as (_ & Hnone).
                 apply (not_ltb_trans dq dist World.INTERACT_DISTANCE);
                   [by eapply Hnone | exact Hnear].
           ++ intros dq Hdq. rewrite Hr in Hdq. injection Hdq as <-. apply ltb_irrefl.
        -- destruct closest as [p|].
           ++ destruct IH as (Hp & Hreach & Hin & Hmin).
              split; [apply elem_of_app; left; exact Hp |].
              split; [exact Hreach |]. split; [exact Hin |].
              apply none_nearer_snoc.
              ** intros q dq Hq Hdq. by eapply Hmin.
              ** intros dq Hdq. rewrite Hr in Hdq. injection Hdq as <-. exact Hnearer.
           ++ destruct IH as (-> & Hnone). exfalso.
              assert (Hinf : PrimFloat.ltb dist infinity = true)
                by (apply (ltb_trans dist World.INTERACT_DISTANCE infinity);
                    [exact Hnear | reflexivity]).
              rewrite Hinf in Hnearer. discriminate.
      * destruct closest as [p|].
        -- destruct IH as (Hp & Hreach & Hin & Hmin).
           split; [apply elem_of_app; left; exact Hp |].
           split; [exact Hreach |]. split; [exact Hin |].
           apply none_nearer_snoc.
           ++ intros q dq Hq Hdq. by eapply Hmin.
           ++ intros dq Hdq. rewrite Hr in Hdq. injection Hdq as <-.
              destruct (PrimFloat.ltb dist minDist) eqn:Hnearer; [| reflexivity].
              rewrite (ltb_trans _ _ _ Hnearer Hin) in Hnear. discriminate.
        -- destruct IH as (-> & Hnone). split; [reflexivity |].
           apply none_nearer_snoc.
           ++ intros q dq Hq Hdq. by eapply Hnone.
           ++ intros dq Hdq. rewrite Hr in Hdq. injection Hdq as <-. exact Hnear.
    + assert (Hr : World.reach player_position r = None)
        by (unfold World.reach; rewrite Hmesh; reflexivity).
      destruct closest as [p|].
      * destruct IH as (Hp & Hreach & Hin & Hmin).
        split; [apply elem_of_app; left; exact Hp |].
        split; [exact Hreach |]. split; [exact Hin |].
        apply none_nearer_snoc.
        -- intros q dq Hq Hdq. by eapply Hmin.
        -- intros dq Hdq. rewrite Hr in Hdq. discriminate.
      * destruct IH as (-> & Hnone). split; [reflexivity |].
        apply none_nearer_snoc.
        -- intros q dq Hq Hdq. by eapply Hnone.
        -- intros dq Hdq. rewrite Hr in Hdq. discriminate.
Qed.

(** X22. The post the E key opens is a nearest one in reach: the frame loop
    leaves [closestPost] empty exactly when no post with a mesh is closer
    than INTERACT_DISTANCE to the player; otherwise it is one of the posts,
    closer than INTERACT_DISTANCE, and no post is strictly closer. *)
Theorem closest_post_is_nearest (player_position : Vector3) (posts : list World.ScenePost) :
  (World.findClosestPost player_position posts = None
   <-> forall q dq, q ∈ posts -> World.reach player_position q = Some dq ->
                    PrimFloat.ltb dq World.INTERACT_DISTANCE = false)
  /\ (forall p, World.findClosestPost player_position posts = Some p ->
        p ∈ posts
        /\ exists dp, World.reach player_position p = Some dp
             /\ PrimFloat.ltb dp World.INTERACT_DISTANCE = true
             /\ forall q dq, q ∈ posts -> World.reach player_position q = Some dq ->
                             PrimFloat.ltb dq dp = false).
Proof.
  unfold World.findClosestPost.
  pose proof (closest_invariant player_position posts) as Hinv.
  destruct (foldl _ _ posts) as [minDist [p|]]; cbn [snd].
  - destruct Hinv as (Hp & Hreach & Hin & Hmin). split.
    + split; [discriminate |]. intros Hnone.
      rewrite (Hnone p minDist Hp Hreach) in Hin. discriminate.
    + intros p' [= <-]. split; [exact Hp |]. exists minDist. auto.
  - destruct Hinv as (_ & Hnone). split; [split; auto | discriminate].
Qed.
